(** * MediTatva: the medicine-request matching engine

    A shallow embedding of
    - the [MedicineRequest] Mongoose model (schema defaults, the pre-save
      hook, and the instance methods [addResponse], [acceptPharmacy],
      [addCommunication]),
    - the [MedicineRequestController] class (respondToRequest,
      acceptPharmacy, updateRequestStatus, addCommunication,
      calculateDistance and the helpers), and
    - the [validateMedicineRequest] middleware of the router,
    followed by the properties of the request life cycle.

    Conventions of the embedding.
    - A JavaScript number is an IEEE-754 double: prices and coordinates that
      are only compared, added and multiplied are primitive binary64 floats.
      The haversine formula needs [Math.sin], [Math.cos], [Math.sqrt] and
      [Math.atan2]; it is studied over the real numbers.
    - [Date.now()] is an explicit argument [now], in milliseconds.
    - An [ObjectId] is a number; [a.toString() === b.toString()] on two
      ids is equality of the ids.
    - [findById] is the argument [found : option Request]; a controller
      returns the reply it sends, the document it saved (if it saved one)
      and the events it pushed to the socket handler. *)

From Stdlib Require Import Bool ZArith NArith List String Ascii Lia.
From Stdlib Require Import Floats.
From Stdlib Require Import Reals Lra.
Import ListNotations.

Local Open Scope string_scope.
Local Open Scope Z_scope.

(** ** JavaScript values *)

Module JS.

Definition number := float.

(** [!!x] for a number: [0], [-0] and [NaN] are falsy. *)
Definition truthy_number (x : number) : bool :=
  negb (is_zero x || is_nan x).

(** [!!x] for a property that may be [undefined]. *)
Definition truthy_opt_number (x : option number) : bool :=
  match x with
  | Some v => truthy_number v
  | None => false
  end.

(** [!!s] for a string that may be [undefined]: the empty string is falsy. *)
Definition truthy_opt_string (s : option string) : bool :=
  match s with
  | Some EmptyString => false
  | Some _ => true
  | None => false
  end.

(** An error thrown by a method, or the value it returns. *)
Inductive result (A : Type) : Type :=
| Return (a : A)
| Throw (msg : string).

Arguments Return {A} a.
Arguments Throw {A} msg.

End JS.

Import JS.

(** ** Data model (the Mongoose schema) *)

Definition ObjectId := N.

Module Status.

(** [status.enum] of the schema. *)
Inductive t : Set :=
| open | accepted | preparing | ready | completed | cancelled | expired.

Definition eqb (a b : t) : bool :=
  match a, b with
  | open, open | accepted, accepted | preparing, preparing
  | ready, ready | completed, completed | cancelled, cancelled
  | expired, expired => true
  | _, _ => false
  end.

Definition all : list t :=
  [open; accepted; preparing; ready; completed; cancelled; expired].

End Status.

Module Role.

(** [role.enum] of the User schema. *)
Inductive t : Set := patient | user | pharmacy | instructor | admin.

Definition eqb (a b : t) : bool :=
  match a, b with
  | patient, patient | user, user | pharmacy, pharmacy
  | instructor, instructor | admin, admin => true
  | _, _ => false
  end.

End Role.

(** [req.user], as far as the controller reads it. *)
Record User : Set := mkUser {
  _id : ObjectId;
  role : Role.t
}.

(** One entry of [responses[].availableMedicines]. *)
Record AvailableMedicine : Set := mkAvailableMedicine {
  medicineName : string;
  available : bool;
  price : option number
}.

(** One entry of [responses]. *)
Record Response : Set := mkResponse {
  pharmacy : ObjectId;
  availableMedicines : list AvailableMedicine;
  totalPrice : number;
  discount : number;
  finalPrice : number;
  message : option string;
  estimatedTime : option string;
  deliveryAvailable : bool;
  deliveryCharge : number;
  respondedAt : Z;
  isActive : bool
}.

(** The [responseData] object that [respondToRequest] hands to
    [addResponse]. *)
Record ResponseData : Set := mkResponseData {
  rd_availableMedicines : list AvailableMedicine;
  rd_totalPrice : number;
  rd_discount : number;
  rd_finalPrice : number;
  rd_message : option string;
  rd_estimatedTime : option string;
  rd_deliveryAvailable : bool;
  rd_deliveryCharge : number
}.

(** The [acceptedPharmacy] sub-object, once a pharmacy has been accepted. *)
Record AcceptedPharmacy : Set := mkAcceptedPharmacy {
  accepted_pharmacy : ObjectId;
  acceptedAt : Z;
  estimatedReadyTime : Z;
  specialInstructions : option string
}.

(** One entry of [communication]. *)
Record Communication : Set := mkCommunication {
  sender : ObjectId;
  comm_message : string;
  comm_type : string;
  timestamp : Z
}.

(** A [MedicineRequest] document: the fields the life cycle reads or writes. *)
Record Request : Set := mkRequest {
  patient : ObjectId;
  status : Status.t;
  responses : list Response;
  acceptedPharmacy : option AcceptedPharmacy;
  communication : list Communication;
  notes : option string;
  expiresAt : Z;
  responseCount : Z
}.

Definition set_status (s : Status.t) (d : Request) : Request :=
  mkRequest (patient d) s (responses d) (acceptedPharmacy d)
            (communication d) (notes d) (expiresAt d) (responseCount d).

Definition set_responses (rs : list Response) (d : Request) : Request :=
  mkRequest (patient d) (status d) rs (acceptedPharmacy d)
            (communication d) (notes d) (expiresAt d) (responseCount d).

Definition set_acceptedPharmacy (a : AcceptedPharmacy) (d : Request) : Request :=
  mkRequest (patient d) (status d) (responses d) (Some a)
            (communication d) (notes d) (expiresAt d) (responseCount d).

Definition set_communication (c : list Communication) (d : Request) : Request :=
  mkRequest (patient d) (status d) (responses d) (acceptedPharmacy d)
            c (notes d) (expiresAt d) (responseCount d).

Definition set_notes (n : option string) (d : Request) : Request :=
  mkRequest (patient d) (status d) (responses d) (acceptedPharmacy d)
            (communication d) n (expiresAt d) (responseCount d).

Definition set_responseCount (n : Z) (d : Request) : Request :=
  mkRequest (patient d) (status d) (responses d) (acceptedPharmacy d)
            (communication d) (notes d) (expiresAt d) n.

Definition set_finalPrice (p : number) (r : Response) : Response :=
  mkResponse (pharmacy r) (availableMedicines r) (totalPrice r) (discount r)
             p (message r) (estimatedTime r) (deliveryAvailable r)
             (deliveryCharge r) (respondedAt r) (isActive r).

Definition set_isActive (b : bool) (r : Response) : Response :=
  mkResponse (pharmacy r) (availableMedicines r) (totalPrice r) (discount r)
             (finalPrice r) (message r) (estimatedTime r) (deliveryAvailable r)
             (deliveryCharge r) (respondedAt r) b.

(** The ids of the pharmacies that have a response on the request. *)
Definition responders (d : Request) : list ObjectId :=
  map pharmacy (responses d).

(** ** The model: hooks and instance methods *)

Module MedicineRequest.

(** [expiresAt.default]: 24 hours after creation. *)
Definition ttl : Z := 24 * 60 * 60 * 1000.

(** The body of the [forEach] of the pre-save hook. *)
Definition recompute (r : Response) : Response :=
  if (0 <? discount r)%float
  then set_finalPrice (totalPrice r - (totalPrice r * discount r / 100))%float r
  else set_finalPrice (totalPrice r) r.

(** [medicineRequestSchema.pre('save')]. *)
Definition pre_save (now : Z) (d : Request) : Request :=
  let d1 :=
    if Status.eqb (status d) Status.open && (expiresAt d <? now)
    then set_status Status.expired d
    else d in
  set_responses (map recompute (responses d1)) d1.

(** [this.save()]: the hook runs, and the document is stored. *)
Definition save (now : Z) (d : Request) : Request := pre_save now d.

(** [MedicineRequest.create] as [createRequest] calls it: every field the
    caller leaves out takes its schema default. *)
Definition create (now : Z) (patientId : ObjectId) (n : option string)
  : Request :=
  save now (mkRequest patientId Status.open [] None [] n (now + ttl) 0).

(** [this.responses.find(r => r.pharmacy.toString() === pharmacyId.toString())]. *)
Definition find_response (pharmacyId : ObjectId) (d : Request)
  : option Response :=
  find (fun r => N.eqb (pharmacy r) pharmacyId) (responses d).

(** [addResponse(pharmacyId, responseData)]: the pushed sub-document takes
    the schema defaults [respondedAt = Date.now()] and [isActive = true]. *)
Definition addResponse (now : Z) (pharmacyId : ObjectId)
           (responseData : ResponseData) (d : Request) : result Request :=
  match find_response pharmacyId d with
  | Some _ => Throw "Pharmacy has already responded to this request"
  | None =>
      let r := mkResponse pharmacyId
                 (rd_availableMedicines responseData)
                 (rd_totalPrice responseData) (rd_discount responseData)
                 (rd_finalPrice responseData) (rd_message responseData)
                 (rd_estimatedTime responseData)
                 (rd_deliveryAvailable responseData)
                 (rd_deliveryCharge responseData) now true in
      let d1 := set_responses (responses d ++ [r]) d in
      let d2 := set_responseCount (responseCount d1 + 1) d1 in
      Return (save now d2)
  end.

(** The body of the [forEach] of [acceptPharmacy]. *)
Definition deactivate_other (pharmacyId : ObjectId) (r : Response)
  : Response :=
  if negb (N.eqb (pharmacy r) pharmacyId) then set_isActive false r else r.

(** [acceptPharmacy(pharmacyId, additionalData)]. *)
Definition acceptPharmacy (now : Z) (pharmacyId : ObjectId)
           (instructions : option string) (readyTime : Z) (d : Request)
  : result Request :=
  match find_response pharmacyId d with
  | None => Throw "Pharmacy response not found"
  | Some _ =>
      let d1 := set_status Status.accepted d in
      let d2 := set_acceptedPharmacy
                  (mkAcceptedPharmacy pharmacyId now readyTime instructions)
                  d1 in
      let d3 := set_responses
                  (map (deactivate_other pharmacyId) (responses d2)) d2 in
      Return (save now d3)
  end.

(** [addCommunication(senderId, message, type, metadata)]. *)
Definition addCommunication (now : Z) (senderId : ObjectId)
           (msg type : string) (d : Request) : Request :=
  save now
    (set_communication
       (communication d ++ [mkCommunication senderId msg type now]) d).

End MedicineRequest.

(** ** The controller *)

(** What [res.status(code).json({status, message, ...})] sends. *)
Record Reply : Set := mkReply {
  res_status : Z;
  res_message : string
}.

(** One call [socketHandler.notifyUser(target, event, payload)]. *)
Record Emit : Set := mkEmit {
  target : ObjectId;
  event : string
}.

(** The observable result of one controller call: the reply, the document
    written by [save] (none when the call returns before saving) and the
    events pushed, in order. *)
Record Outcome : Set := mkOutcome {
  res : Reply;
  saved : option Request;
  emitted : list Emit
}.

(** The body of [POST /:requestId/respond]. *)
Record RespondBody : Set := mkRespondBody {
  body_availableMedicines : list AvailableMedicine;
  body_message : option string;
  body_estimatedTime : option string;
  body_deliveryAvailable : option bool;
  body_deliveryCharge : option number
}.

Module MedicineRequestController.

Section Controller.

(** [this.socketHandler]: present or not. *)
Variable socketHandler : bool.

Definition fail (code : Z) (msg : string) : Outcome :=
  mkOutcome (mkReply code msg) None [].

(** [/\d/] on one character. *)
Definition is_digit (c : ascii) : bool :=
  ((48 <=? N_of_ascii c) && (N_of_ascii c <=? 57))%N.

(** The longest prefix made of digits. *)
Fixpoint leading_digits (s : string) : string :=
  match s with
  | String c s' => if is_digit c then String c (leading_digits s') else ""
  | EmptyString => ""
  end.

(** [s.match(/\d+/)?.[0]]: the first maximal run of digits. *)
Fixpoint match_digits (s : string) : option string :=
  match s with
  | String c s' =>
      if is_digit c then Some (String c (leading_digits s'))
      else match_digits s'
  | EmptyString => None
  end.

(** [parseInt] on a string of digits. *)
Fixpoint parseInt_from (acc : Z) (s : string) : Z :=
  match s with
  | String c s' => parseInt_from (10 * acc + (Z.of_N (N_of_ascii c) - 48)) s'
  | EmptyString => acc
  end.

Definition parseInt (s : string) : Z := parseInt_from 0 s.

(** [calculateEstimatedReadyTime(request, pharmacyId)]. *)
Definition calculateEstimatedReadyTime (now : Z) (request : Request)
           (pharmacyId : ObjectId) : Z :=
  match MedicineRequest.find_response pharmacyId request with
  | Some pharmacyResponse =>
      if truthy_opt_string (estimatedTime pharmacyResponse) then
        let text := match estimatedTime pharmacyResponse with
                    | Some s => s
                    | None => ""
                    end in
        let minutes := parseInt (match match_digits text with
                                 | Some m => m
                                 | None => "30"
                                 end) in
        now + minutes * 60 * 1000
      else now + 30 * 60 * 1000
  | None => now + 30 * 60 * 1000
  end.

(** The [forEach] that sums the prices of the available medicines. *)
Definition sum_prices (meds : list AvailableMedicine) : number :=
  fold_left
    (fun total med =>
       match price med with
       | Some p => if available med && truthy_number p
                   then (total + p)%float else total
       | None => total
       end)
    meds 0%float.

(** [discount = 5] for orders above 1000, else [0]. *)
Definition discount_for (total : number) : number :=
  if (1000 <? total)%float then 5%float else 0%float.

(** [totalPrice - (totalPrice * discount / 100)]. *)
Definition final_price (total disc : number) : number :=
  (total - (total * disc / 100))%float.

(** [respondToRequest]. *)
Definition respondToRequest (now : Z) (u : User) (body : RespondBody)
           (found : option Request) : Outcome :=
  if negb (Role.eqb (role u) Role.pharmacy) then
    fail 403 "Only pharmacies can respond to requests"
  else
    match found with
    | None => fail 404 "Medicine request not found"
    | Some request =>
        if negb (Status.eqb (status request) Status.open) then
          fail 400 "This request is no longer accepting responses"
        else
          let total := sum_prices (body_availableMedicines body) in
          let disc := discount_for total in
          let final := final_price total disc in
          let data :=
            mkResponseData (body_availableMedicines body) total disc final
              (body_message body) (body_estimatedTime body)
              (match body_deliveryAvailable body with
               | Some b => b
               | None => false
               end)
              (match body_deliveryCharge body with
               | Some c => if truthy_number c then c else 0%float
               | None => 0%float
               end) in
          match MedicineRequest.addResponse now (_id u) data request with
          | Throw msg => fail 500 msg
          | Return request' =>
              mkOutcome
                (mkReply 200 "Response sent to patient successfully")
                (Some request')
                (if socketHandler
                 then [mkEmit (patient request') "pharmacy_responded"]
                 else [])
          end
    end.

(** [acceptPharmacy]. The list of the other pharmacies is computed from
    [request.responses] after [request.acceptPharmacy] has run on the same
    document. *)
Definition acceptPharmacy (now : Z) (u : User) (pharmacyId : ObjectId)
           (instructions : option string) (found : option Request)
  : Outcome :=
  match found with
  | None => fail 404 "Medicine request not found"
  | Some request =>
      if negb (N.eqb (patient request) (_id u)) then
        fail 403 "You can only accept responses to your own requests"
      else if negb (Status.eqb (status request) Status.open) then
        fail 400 "This request is no longer accepting responses"
      else
        match MedicineRequest.acceptPharmacy now pharmacyId instructions
                (calculateEstimatedReadyTime now request pharmacyId)
                request with
        | Throw msg => fail 500 msg
        | Return request' =>
            let otherPharmacies :=
              map pharmacy
                (filter (fun r => negb (N.eqb (pharmacy r) pharmacyId)
                                  && isActive r)
                        (responses request')) in
            mkOutcome
              (mkReply 200 "Pharmacy response accepted successfully. You can now visit the pharmacy.")
              (Some request')
              (if socketHandler
               then mkEmit pharmacyId "request_accepted"
                    :: map (fun pId => mkEmit pId "request_closed")
                           otherPharmacies
               else [])
        end
  end.

(** [request.patient._id.toString() === req.user._id.toString()]. *)
Definition isPatient (u : User) (request : Request) : bool :=
  N.eqb (patient request) (_id u).

(** [request.acceptedPharmacy?.pharmacy?._id.toString() === req.user._id.toString()]. *)
Definition isAcceptedPharmacy (u : User) (request : Request) : bool :=
  match acceptedPharmacy request with
  | Some a => N.eqb (accepted_pharmacy a) (_id u)
  | None => false
  end.

(** [targetUserId]: the counterpart of the caller, when there is one. *)
Definition targetUserId (u : User) (request : Request) : option ObjectId :=
  if isPatient u request
  then option_map accepted_pharmacy (acceptedPharmacy request)
  else Some (patient request).

Definition notify_target (u : User) (request : Request) (ev : string)
  : list Emit :=
  if socketHandler then
    match targetUserId u request with
    | Some t => [mkEmit t ev]
    | None => []
    end
  else [].

(** [updateRequestStatus]: the requested status is one of the schema's
    enum values. *)
Definition updateRequestStatus (now : Z) (u : User) (newStatus : Status.t)
           (newNotes : option string) (found : option Request) : Outcome :=
  match found with
  | None => fail 404 "Medicine request not found"
  | Some request =>
      if negb (isPatient u request) && negb (isAcceptedPharmacy u request) then
        fail 403 "You are not authorized to update this request"
      else
        let r1 := set_status newStatus request in
        let r2 := if truthy_opt_string newNotes then set_notes newNotes r1
                  else r1 in
        let request' := MedicineRequest.save now r2 in
        mkOutcome (mkReply 200 "Request status updated successfully")
                  (Some request')
                  (notify_target u request' "request_status_changed")
  end.

(** [addCommunication]. *)
Definition addCommunication (now : Z) (u : User) (msg type : string)
           (found : option Request) : Outcome :=
  match found with
  | None => fail 404 "Medicine request not found"
  | Some request =>
      if negb (isPatient u request) && negb (isAcceptedPharmacy u request) then
        fail 403 "You can only communicate about your own requests"
      else
        let request' :=
          MedicineRequest.addCommunication now (_id u) msg type request in
        mkOutcome (mkReply 200 "Message sent successfully")
                  (Some request')
                  (notify_target u request' "new_message")
  end.

(** [getStatusMessage]. *)
Definition getStatusMessage (s : Status.t) : string :=
  match s with
  | Status.accepted => "Your request has been accepted by the pharmacy"
  | Status.preparing => "Pharmacy is preparing your medicines"
  | Status.ready => "Your medicines are ready for pickup"
  | Status.completed => "Order completed successfully"
  | Status.cancelled => "Request has been cancelled"
  | _ => "Status updated"
  end.

End Controller.

End MedicineRequestController.

(** [getRequestResponses], the read used by the patient: the reply carries
    the document as [findById] returned it (the distance added to each
    response is left out). *)
Definition getRequestResponses (u : User) (found : option Request)
  : Reply * option Request :=
  match found with
  | None => (mkReply 404 "Medicine request not found", None)
  | Some request =>
      if negb (N.eqb (patient request) (_id u)) then
        (mkReply 403 "You can only view responses to your own requests", None)
      else (mkReply 200 "success", Some request)
  end.

(** ** The validation middleware of the router *)

(** One entry of [req.body.medicines]. *)
Record MedicineInput : Set := mkMedicineInput {
  name : option string;
  quantity : option number
}.

(** [req.body.location]. *)
Record LocationInput : Set := mkLocationInput {
  latitude : option number;
  longitude : option number
}.

(** [req.body] of [POST /]; [medicines] is [None] when the field is absent
    or is not an array. *)
Record CreateBody : Set := mkCreateBody {
  medicines : option (list MedicineInput);
  location : option LocationInput
}.

(** What a middleware does: call [next()] or answer. *)
Inductive Middleware : Set :=
| next
| respond (r : Reply).

(** [!medicine.name || !medicine.quantity || medicine.quantity <= 0]. *)
Definition bad_medicine (m : MedicineInput) : bool :=
  negb (truthy_opt_string (name m))
  || negb (truthy_opt_number (quantity m))
  || match quantity m with
     | Some q => (q <=? 0)%float
     | None => false
     end.

(** [validateMedicineRequest]. *)
Definition validateMedicineRequest (body : CreateBody) : Middleware :=
  match medicines body with
  | None | Some [] =>
      respond (mkReply 400 "At least one medicine is required")
  | Some ms =>
      if existsb bad_medicine ms then
        respond (mkReply 400 "Each medicine must have a name and valid quantity")
      else
        match location body with
        | None =>
            respond (mkReply 400 "Location (latitude and longitude) is required")
        | Some loc =>
            if negb (truthy_opt_number (latitude loc))
               || negb (truthy_opt_number (longitude loc))
            then respond (mkReply 400 "Location (latitude and longitude) is required")
            else next
        end
  end.

(** ** Sequences of calls on one request *)

Inductive Op : Set :=
| RespondToRequest (u : User) (body : RespondBody)
| AcceptPharmacy (u : User) (pharmacyId : ObjectId)
                 (instructions : option string)
| UpdateRequestStatus (u : User) (newStatus : Status.t)
                      (newNotes : option string)
| AddCommunication (u : User) (msg type : string).

(** One call of the controller on the stored document. *)
Definition call (h : bool) (now : Z) (op : Op) (d : Request) : Outcome :=
  match op with
  | RespondToRequest u body =>
      MedicineRequestController.respondToRequest h now u body (Some d)
  | AcceptPharmacy u pharmacyId instructions =>
      MedicineRequestController.acceptPharmacy h now u pharmacyId
        instructions (Some d)
  | UpdateRequestStatus u newStatus newNotes =>
      MedicineRequestController.updateRequestStatus h now u newStatus
        newNotes (Some d)
  | AddCommunication u msg type =>
      MedicineRequestController.addCommunication h now u msg type (Some d)
  end.

(** The stored document after a call: what the call saved, or the document
    as it was. *)
Definition stored_after (d : Request) (o : Outcome) : Request :=
  match saved o with
  | Some d' => d'
  | None => d
  end.

Definition step (h : bool) (d : Request) (c : Z * Op) : Request :=
  stored_after d (call h (fst c) (snd c) d).

(** A sequence of calls, each at its own time. *)
Definition exec (h : bool) (cs : list (Z * Op)) (d : Request) : Request :=
  fold_left (step h) cs d.

(** The states of a request created at [t0] by [patientId]. *)
Definition reachable (d : Request) : Prop :=
  exists h t0 patientId n cs,
    d = exec h cs (MedicineRequest.create t0 patientId n).

(** ** The replies the specification names *)

Definition RequestClosed : Reply :=
  mkReply 400 "This request is no longer accepting responses".




(** ** Distances *)

Module Geo.

Local Open Scope R_scope.






End Geo.

(** ** Statements of the specification that are compared with the code *)

(** The edges of the state machine as the specification lists them. *)
Definition spec_allowed_edge (from to : Status.t) : bool :=
  match from, to with
  | Status.open, Status.accepted
  | Status.open, Status.expired
  | Status.open, Status.cancelled
  | Status.accepted, Status.preparing
  | Status.preparing, Status.ready
  | Status.ready, Status.completed
  | Status.accepted, Status.cancelled
  | Status.preparing, Status.cancelled
  | Status.ready, Status.cancelled => true
  | _, _ => false
  end.


(** The specification's formula for the final price, in the arithmetic of
    the code. *)
Definition spec_final_price (total disc : number) : number :=
  (total * (1 - disc / 100))%float.

(** A sequence of calls in which no status update asks for [open]. *)
Definition reopens (c : Z * Op) : bool :=
  match snd c with
  | UpdateRequestStatus _ Status.open _ => true
  | _ => false
  end.

Definition never_reopens (cs : list (Z * Op)) : Prop :=
  forallb (fun c => negb (reopens c)) cs = true.

(** The status a save at [now] leaves, when the document goes in with
    status [s]. *)
Definition status_after_save (now : Z) (d : Request) (s : Status.t)
  : Status.t :=
  if Status.eqb s Status.open && (expiresAt d <? now)
  then Status.expired else s.


(** ** Concrete requests: the scenarios of the specification *)

Definition alice : User := mkUser 1%N Role.patient.
Definition pharmacyA : User := mkUser 10%N Role.pharmacy.
Definition pharmacyB : User := mkUser 11%N Role.pharmacy.

(** An offer of one available medicine at price [p]. *)
Definition offer (p : number) : RespondBody :=
  mkRespondBody [mkAvailableMedicine "Paracetamol" true (Some p)]
                None (Some "15 minutes") None None.

(** A request created by [alice] at time 0. *)
Definition fresh : Request := MedicineRequest.create 0 1%N None.

(** Scenario 2: pharmacy A offers 1200, pharmacy B offers 900. *)
Definition two_offers : Request :=
  exec true [(1000, RespondToRequest pharmacyA (offer 1200%float));
             (2000, RespondToRequest pharmacyB (offer 900%float))] fresh.

(** One offer of 1001. *)
Definition offer_1001 : Request :=
  exec true [(1000, RespondToRequest pharmacyA (offer 1001%float))] fresh.

(** Scenario 3: [alice] accepts pharmacy A on [two_offers]. *)
Definition accepted_A : Request :=
  exec true [(3000, AcceptPharmacy alice 10%N None)] two_offers.

(** The accepted request taken through preparing, ready and completed. *)
Definition completed_A : Request :=
  exec true [(4000, UpdateRequestStatus pharmacyA Status.preparing None);
             (5000, UpdateRequestStatus pharmacyA Status.ready None);
             (6000, UpdateRequestStatus alice Status.completed None)]
       accepted_A.

(** One second after the expiry of [fresh]. *)
Definition after_expiry : Z := expiresAt fresh + 1000.



(** The patient accepts A, sets the status back to open and accepts B. *)
Definition reaccepted : Request :=
  exec true [(4000, UpdateRequestStatus alice Status.open None);
             (5000, AcceptPharmacy alice 11%N None)] accepted_A.

(** A request body with a valid medicine list and a point of the equator
    as origin. *)
Definition equator_body : CreateBody :=
  mkCreateBody
    (Some [mkMedicineInput (Some "Paracetamol") (Some 2%float)])
    (Some (mkLocationInput (Some 0%float) (Some 76.5%float))).


(** What the code stores as discount and final price for a total. *)
Definition stored_discount (total : number) : number :=
  if (1000 <? total)%float then 5%float else 0%float.

Definition stored_final_price (total : number) : number :=
  if (1000 <? total)%float
  then (total - (total * 5 / 100))%float
  else total.

(** The discount was set by [respondToRequest]. *)
Definition discount_ok (r : Response) : Prop :=
  discount r = MedicineRequestController.discount_for (totalPrice r).

(** The discount and the final price are the ones a save leaves. *)
Definition price_ok (r : Response) : Prop :=
  discount r = stored_discount (totalPrice r) /\
  finalPrice r = stored_final_price (totalPrice r).

(** The relation between the accepted pharmacy and the active responses
    that the calls maintain. *)
Definition acceptance_invariant (d : Request) : Prop :=
  match acceptedPharmacy d with
  | None => forall r, In r (responses d) -> isActive r = true
  | Some a =>
      status d <> Status.open /\
      (exists r, In r (responses d) /\
                 pharmacy r = accepted_pharmacy a /\ isActive r = true) /\
      (forall r, In r (responses d) -> isActive r = true ->
                 pharmacy r = accepted_pharmacy a)
  end.

(** ** Callers *)

(** [req.user] of a call. *)
Definition caller (op : Op) : User :=
  match op with
  | RespondToRequest u _ => u
  | AcceptPharmacy u _ _ => u
  | UpdateRequestStatus u _ _ => u
  | AddCommunication u _ _ => u
  end.

(** A user who is neither the patient of the request, nor its accepted
    pharmacy, nor a user with the pharmacy role. *)
Definition outsider (d : Request) (u : User) : bool :=
  negb (MedicineRequestController.isPatient u d)
  && negb (MedicineRequestController.isAcceptedPharmacy u d)
  && negb (Role.eqb (role u) Role.pharmacy).

(** The response that [respondToRequest] hands to [addResponse] for a body,
    as [addResponse] pushes it for the caller at time [now]. *)
Definition pushed_response (now : Z) (u : User) (body : RespondBody)
  : Response :=
  let total :=
    MedicineRequestController.sum_prices (body_availableMedicines body) in
  let disc := MedicineRequestController.discount_for total in
  mkResponse (_id u) (body_availableMedicines body) total disc
    (MedicineRequestController.final_price total disc)
    (body_message body) (body_estimatedTime body)
    (match body_deliveryAvailable body with
     | Some b => b
     | None => false
     end)
    (match body_deliveryCharge body with
     | Some c => if truthy_number c then c else 0%float
     | None => 0%float
     end)
    now true.

(** How a response may differ after further calls: same pharmacy, same
    offer, and not active again once it was deactivated. *)
Definition same_offer (r r' : Response) : Prop :=
  pharmacy r' = pharmacy r /\
  availableMedicines r' = availableMedicines r /\
  totalPrice r' = totalPrice r /\
  discount r' = discount r /\
  respondedAt r' = respondedAt r /\
  (isActive r = false -> isActive r' = false).

(** ** Digits in a string *)

(** Every character is a digit. *)
Fixpoint all_digits (s : string) : bool :=
  match s with
  | String c s' => MedicineRequestController.is_digit c && all_digits s'
  | EmptyString => true
  end.

(** No character is a digit. *)
Fixpoint no_digit (s : string) : bool :=
  match s with
  | String c s' => negb (MedicineRequestController.is_digit c) && no_digit s'
  | EmptyString => true
  end.

(** The first character is a digit. *)
Definition starts_with_digit (s : string) : bool :=
  match s with
  | String c _ => MedicineRequestController.is_digit c
  | EmptyString => false
  end.


(** ** The middleware that validates a pharmacy response *)

(** One entry of [req.body.availableMedicines] before validation: any of
    the properties may be missing. *)
Record OfferedMedicine : Set := mkOfferedMedicine {
  om_medicineName : option string;
  om_available : option bool;
  om_price : option number
}.

(** [!medicine.medicineName || medicine.available === undefined]. *)
Definition unnamed_offer (m : OfferedMedicine) : bool :=
  negb (truthy_opt_string (om_medicineName m))
  || match om_available m with
     | Some _ => false
     | None => true
     end.

(** [medicine.available && (!medicine.price || medicine.price <= 0)]. *)
Definition unpriced_offer (m : OfferedMedicine) : bool :=
  match om_available m with
  | Some true =>
      negb (truthy_opt_number (om_price m))
      || match om_price m with
         | Some p => (p <=? 0)%float
         | None => false
         end
  | _ => false
  end.

(** The loop over the medicines: the first medicine that fails one of the
    two tests decides the answer. *)
Fixpoint check_offers (ms : list OfferedMedicine) : Middleware :=
  match ms with
  | [] => next
  | m :: ms' =>
      if unnamed_offer m then
        respond (mkReply 400
                   "Each medicine must have name and availability status")
      else if unpriced_offer m then
        respond (mkReply 400 "Available medicines must have valid price")
      else check_offers ms'
  end.

(** [validatePharmacyResponse]; [None] when the field is absent or is not
    an array. *)
Definition validatePharmacyResponse
           (availableMedicines : option (list OfferedMedicine)) : Middleware :=
  match availableMedicines with
  | None | Some [] =>
      respond (mkReply 400 "Available medicines information is required")
  | Some ms => check_offers ms
  end.

(** The entry the controller reads, as it arrives in the request body. *)
Definition as_offered (m : AvailableMedicine) : OfferedMedicine :=
  mkOfferedMedicine (Some (medicineName m)) (Some (available m)) (price m).

(** A medicine of a request with a name and a positive quantity. *)
Definition valid_medicine (m : MedicineInput) : Prop :=
  exists nm q,
    name m = Some nm /\ nm <> ""%string /\
    quantity m = Some q /\ (0 <? q)%float = true.

(** A coordinate that is present and is neither zero nor [NaN]. *)
Definition usable_coordinate (c : option number) : Prop :=
  exists x, c = Some x /\ is_zero x = false /\ is_nan x = false.



(** An entry of a response body with a non-empty name, an availability
    flag and, when available, a positive price. *)
Definition valid_raw_offer (m : OfferedMedicine) : Prop :=
  (exists nm, om_medicineName m = Some nm /\ nm <> ""%string) /\
  exists b,
    om_available m = Some b /\
    (b = true -> exists p, om_price m = Some p /\ (0 <? p)%float = true).

(** ** Creating a request *)

Module Urgency.

(** [urgency.enum] of the schema. *)
Inductive t : Set := normal | urgent | emergency.

(** The string stored in the document. *)
Definition name (u : t) : string :=
  match u with
  | normal => "normal"
  | urgent => "urgent"
  | emergency => "emergency"
  end.

End Urgency.

(** [req.file] and what [uploadPrescriptionToCloudinary] does with it. *)
Inductive Upload : Set :=
| no_file
| upload_failed
| uploaded.

(** The two broadcasts of the socket handler. *)
Inductive Broadcast : Set :=
| notifyNearbyPharmacies (lat lon : option number) (ev : string)
| notifyAllPharmacies (ev : string).

(** The result of [POST /]: the reply, the document created (if any), the
    urgency stored in it and the broadcasts, in order. *)
Record CreateOutcome : Set := mkCreateOutcome {
  create_res : Reply;
  created : option Request;
  created_urgency : Urgency.t;
  broadcasts : list Broadcast
}.

Definition create_fail (code : Z) (msg : string) : CreateOutcome :=
  mkCreateOutcome (mkReply code msg) None Urgency.normal [].

(** [createRequest], for a body that the router hands to it: the schema
    validation made by [MedicineRequest.create] on the medicines is the one
    [validateMedicineRequest] has made, and [urgency], when given, is one of
    the enum values.  Reading [location.longitude] of a missing location
    throws the TypeError whose message is the one of V8. *)
Definition createRequest (socketHandler : bool) (now : Z) (u : User)
           (file : Upload) (body : CreateBody)
           (urgency : option Urgency.t) (n : option string)
  : CreateOutcome :=
  if negb (Role.eqb (role u) Role.patient)
     && negb (Role.eqb (role u) Role.user) then
    create_fail 403 "Only patients can create medicine requests"
  else
    match file with
    | upload_failed =>
        create_fail 400 "Failed to upload prescription. Please try again."
    | _ =>
        match location body with
        | None =>
            create_fail 500
              "Cannot read properties of undefined (reading 'longitude')"
        | Some loc =>
            let request := MedicineRequest.create now (_id u) n in
            let stored := match urgency with
                          | Some x => x
                          | None => Urgency.normal
                          end in
            mkCreateOutcome
              (mkReply 201 "Medicine request created successfully. Nearby pharmacies have been notified.")
              (Some request) stored
              (if socketHandler then
                 notifyNearbyPharmacies (latitude loc) (longitude loc)
                   "new_medicine_request"
                 :: match urgency with
                    | Some Urgency.urgent | Some Urgency.emergency =>
                        [notifyAllPharmacies "urgent_medicine_request"]
                    | _ => []
                    end
               else [])
        end
    end.

(** [router.post('/', ..., validateMedicineRequest, createRequest)]. *)
Definition post_request (socketHandler : bool) (now : Z) (u : User)
           (file : Upload) (body : CreateBody)
           (urgency : option Urgency.t) (n : option string)
  : CreateOutcome :=
  match validateMedicineRequest body with
  | respond r => mkCreateOutcome r None Urgency.normal []
  | next => createRequest socketHandler now u file body urgency n
  end.

(** ** The listing of the urgent requests *)






(** The user is the patient of the request or its accepted pharmacy. *)
Definition party (d : Request) (u : User) : bool :=
  MedicineRequestController.isPatient u d
  || MedicineRequestController.isAcceptedPharmacy u d.


(** The patient writes, then the accepted pharmacy answers. *)
Definition conversation : Request :=
  exec true [(4000, AddCommunication alice "When can I come?" "text");
             (4500, AddCommunication pharmacyA "In ten minutes" "text")]
       accepted_A.

(** ** The prescription *)

(** [request.responses.some(r => r.pharmacy._id.toString() === req.user._id.toString())]. *)
Definition hasResponded (u : User) (request : Request) : bool :=
  existsb (fun r => N.eqb (pharmacy r) (_id u)) (responses request).

(** [getPrescriptionImage]: [hasImage] tells whether
    [request.prescription?.imageUrl] is set. *)
Definition getPrescriptionImage (u : User) (hasImage : bool)
           (found : option Request) : Reply :=
  match found with
  | None => mkReply 404 "Medicine request not found"
  | Some request =>
      if negb hasImage then
        mkReply 404 "No prescription image found for this request"
      else if negb (MedicineRequestController.isPatient u request)
              && negb (hasResponded u request)
              && negb (MedicineRequestController.isAcceptedPharmacy u request)
      then mkReply 403 "You are not authorized to view this prescription"
      else mkReply 200 "success"
  end.

(** [updatePrescription]: [file] tells whether a file came with the call
    and whether its upload succeeded; the deletion of the old image never
    stops the call.  The prescription itself is not part of the modelled
    document: the save only runs the hook. *)
Definition updatePrescription (socketHandler : bool) (now : Z) (u : User)
           (file : Upload) (found : option Request) : Outcome :=
  match found with
  | None => MedicineRequestController.fail 404 "Medicine request not found"
  | Some request =>
      if negb (N.eqb (patient request) (_id u)) then
        MedicineRequestController.fail 403
          "You can only update prescriptions for your own requests"
      else
        match file with
        | no_file =>
            MedicineRequestController.fail 400 "Prescription file is required"
        | upload_failed =>
            MedicineRequestController.fail 400
              "Failed to upload prescription. Please try again."
        | uploaded =>
            let request' := MedicineRequest.save now request in
            mkOutcome
              (mkReply 200 "Prescription updated successfully")
              (Some request')
              (if socketHandler then
                 (map (fun r => mkEmit (pharmacy r) "prescription_updated")
                      (filter isActive (responses request'))
                  ++ match acceptedPharmacy request' with
                     | Some a =>
                         [mkEmit (accepted_pharmacy a) "prescription_updated"]
                     | None => []
                     end)%list
               else [])
        end
  end.
(** * Properties *)

(** ** Basic facts about the model *)

Lemma Status_eqb_spec a b : reflect (a = b) (Status.eqb a b).
Proof. destruct a, b; simpl; constructor; congruence. Qed.

Lemma Status_eqb_refl a : Status.eqb a a = true.
Proof. destruct a; reflexivity. Qed.

Lemma Status_eqb_neq a b : a <> b -> Status.eqb a b = false.
Proof. destruct (Status_eqb_spec a b); congruence. Qed.

Lemma recompute_pharmacy r : pharmacy (MedicineRequest.recompute r) = pharmacy r.
Proof. unfold MedicineRequest.recompute; destruct (0 <? discount r)%float; reflexivity. Qed.

Lemma recompute_isActive r : isActive (MedicineRequest.recompute r) = isActive r.
Proof. unfold MedicineRequest.recompute; destruct (0 <? discount r)%float; reflexivity. Qed.

Lemma recompute_totalPrice r :
  totalPrice (MedicineRequest.recompute r) = totalPrice r.
Proof. unfold MedicineRequest.recompute; destruct (0 <? discount r)%float; reflexivity. Qed.

Lemma recompute_discount r :
  discount (MedicineRequest.recompute r) = discount r.
Proof. unfold MedicineRequest.recompute; destruct (0 <? discount r)%float; reflexivity. Qed.

Lemma deactivate_other_pharmacy p r :
  pharmacy (MedicineRequest.deactivate_other p r) = pharmacy r.
Proof.
  unfold MedicineRequest.deactivate_other.
  destruct (negb (pharmacy r =? p)%N); reflexivity.
Qed.

Lemma map_pharmacy_recompute rs :
  map pharmacy (map MedicineRequest.recompute rs) = map pharmacy rs.
Proof.
  rewrite map_map. apply map_ext. intro r. apply recompute_pharmacy.
Qed.

Lemma map_pharmacy_deactivate p rs :
  map pharmacy (map (MedicineRequest.deactivate_other p) rs) = map pharmacy rs.
Proof.
  rewrite map_map. apply map_ext. intro r. apply deactivate_other_pharmacy.
Qed.

(** The hook changes nothing but the status of an open request past its
    expiry and the final prices. *)
Lemma pre_save_status now d :
  status (MedicineRequest.pre_save now d) =
  if Status.eqb (status d) Status.open && (expiresAt d <? now)
  then Status.expired else status d.
Proof.
  unfold MedicineRequest.pre_save.
  destruct (Status.eqb (status d) Status.open && (expiresAt d <? now));
    reflexivity.
Qed.

Lemma pre_save_responses now d :
  responses (MedicineRequest.pre_save now d) =
  map MedicineRequest.recompute (responses d).
Proof.
  unfold MedicineRequest.pre_save.
  destruct (Status.eqb (status d) Status.open && (expiresAt d <? now));
    reflexivity.
Qed.

Lemma pre_save_acceptedPharmacy now d :
  acceptedPharmacy (MedicineRequest.pre_save now d) = acceptedPharmacy d.
Proof.
  unfold MedicineRequest.pre_save.
  destruct (Status.eqb (status d) Status.open && (expiresAt d <? now));
    reflexivity.
Qed.

Lemma pre_save_patient now d :
  patient (MedicineRequest.pre_save now d) = patient d.
Proof.
  unfold MedicineRequest.pre_save.
  destruct (Status.eqb (status d) Status.open && (expiresAt d <? now));
    reflexivity.
Qed.

Lemma pre_save_expiresAt now d :
  expiresAt (MedicineRequest.pre_save now d) = expiresAt d.
Proof.
  unfold MedicineRequest.pre_save.
  destruct (Status.eqb (status d) Status.open && (expiresAt d <? now));
    reflexivity.
Qed.

(** [find] on the pharmacy id. *)
Lemma find_response_none p d :
  MedicineRequest.find_response p d = None <-> ~ In p (responders d).
Proof.
  unfold MedicineRequest.find_response, responders.
  induction (responses d) as [|r rs IH]; simpl.
  - split; [intros _ []|reflexivity].
  - destruct (N.eqb_spec (pharmacy r) p) as [E|E].
    + split; [discriminate|]. intros H. exfalso. apply H. now left.
    + rewrite IH. split.
      * intros H [K|K]; [congruence|tauto].
      * intros H K. apply H. now right.
Qed.

Lemma find_response_some p d r :
  MedicineRequest.find_response p d = Some r ->
  In r (responses d) /\ pharmacy r = p.
Proof.
  unfold MedicineRequest.find_response. intros H.
  apply find_some in H. destruct H as [H1 H2].
  split; [assumption|]. now apply N.eqb_eq.
Qed.

Lemma find_response_in p d :
  In p (responders d) -> exists r, MedicineRequest.find_response p d = Some r.
Proof.
  intros H. destruct (MedicineRequest.find_response p d) as [r|] eqn:E.
  - now exists r.
  - apply find_response_none in E. contradiction.
Qed.

(** ** What one call can do to the stored document *)

(** A call either returns before saving, or appends one response to an open
    request, or accepts a responder of an open request, or only writes a
    status (possibly the one already there). *)
Lemma step_cases h d now op :
  let d' := step h d (now, op) in
  d' = d
  \/ (exists r,
        status d = Status.open /\
        ~ In (pharmacy r) (responders d) /\
        isActive r = true /\
        discount r = MedicineRequestController.discount_for (totalPrice r) /\
        responses d' = map MedicineRequest.recompute (responses d ++ [r]) /\
        acceptedPharmacy d' = acceptedPharmacy d /\
        status d' = status_after_save now d Status.open)
  \/ (exists p a,
        status d = Status.open /\
        In p (responders d) /\
        responses d' =
          map MedicineRequest.recompute
              (map (MedicineRequest.deactivate_other p) (responses d)) /\
        acceptedPharmacy d' = Some a /\
        accepted_pharmacy a = p /\
        status d' = Status.accepted)
  \/ (exists s,
        (s = status d \/ exists u n, op = UpdateRequestStatus u s n) /\
        responses d' = map MedicineRequest.recompute (responses d) /\
        acceptedPharmacy d' = acceptedPharmacy d /\
        status d' = status_after_save now d s).
Proof.
  unfold step, stored_after; simpl fst; simpl snd.
  destruct op as [u body|u p i|u s n|u msg ty]; simpl.
  - (* respondToRequest *)
    unfold MedicineRequestController.respondToRequest.
    destruct (negb (Role.eqb (role u) Role.pharmacy)); [now left|].
    destruct (Status_eqb_spec (status d) Status.open) as [Hs|Hs];
      simpl; [|now left].
    unfold MedicineRequest.addResponse.
    destruct (MedicineRequest.find_response (_id u) d) eqn:Hf;
      [now left|].
    right; left. cbv zeta.
    match goal with
    | |- context [(responses d ++ (?r :: nil))%list] => exists r
    end.
    cbn [saved]. unfold MedicineRequest.save.
    rewrite pre_save_responses, pre_save_acceptedPharmacy, pre_save_status.
    unfold status_after_save. simpl. rewrite Hs.
    repeat split; try reflexivity. now apply find_response_none.
  - (* acceptPharmacy *)
    unfold MedicineRequestController.acceptPharmacy.
    destruct (negb (patient d =? _id u)%N); [now left|].
    destruct (Status_eqb_spec (status d) Status.open) as [Hs|Hs];
      simpl; [|now left].
    unfold MedicineRequest.acceptPharmacy.
    destruct (MedicineRequest.find_response p d) as [r0|] eqn:Hf;
      [|now left].
    right; right; left. cbn [saved]. unfold MedicineRequest.save.
    rewrite pre_save_responses, pre_save_acceptedPharmacy, pre_save_status.
    simpl. eexists p, _. repeat split; try reflexivity; try assumption.
    apply find_response_some in Hf. destruct Hf as [Hin Hp].
    unfold responders. rewrite <- Hp. now apply in_map.
  - (* updateRequestStatus *)
    unfold MedicineRequestController.updateRequestStatus.
    destruct (negb (MedicineRequestController.isPatient u d) &&
              negb (MedicineRequestController.isAcceptedPharmacy u d));
      [now left|].
    right; right; right. exists s. cbv zeta. cbn [saved].
    unfold MedicineRequest.save.
    rewrite pre_save_responses, pre_save_acceptedPharmacy, pre_save_status.
    unfold status_after_save.
    destruct (truthy_opt_string n); simpl; repeat split; eauto.
  - (* addCommunication *)
    unfold MedicineRequestController.addCommunication.
    destruct (negb (MedicineRequestController.isPatient u d) &&
              negb (MedicineRequestController.isAcceptedPharmacy u d));
      [now left|].
    right; right; right. exists (status d). cbv zeta. cbn [saved].
    unfold MedicineRequest.addCommunication, MedicineRequest.save.
    rewrite pre_save_responses, pre_save_acceptedPharmacy, pre_save_status.
    unfold status_after_save. simpl. repeat split; eauto.
Qed.

(** Induction over a sequence of calls. *)
Lemma exec_invariant (P : Request -> Prop) h :
  (forall d now op, P d -> P (step h d (now, op))) ->
  forall cs d, P d -> P (exec h cs d).
Proof.
  intros Hstep cs. unfold exec.
  induction cs as [|[now op] cs IH]; simpl; intros d Hd.
  - assumption.
  - apply IH. now apply Hstep.
Qed.


(** ** Uniqueness of the responders *)

Lemma NoDup_snoc (A : Type) (l : list A) (x : A) :
  NoDup l -> ~ In x l -> NoDup (l ++ [x]).
Proof.
  induction l as [|a l IH]; simpl; intros Hl Hx.
  - constructor; [intros []|constructor].
  - inversion Hl as [|a' l' Ha Hl']; subst. constructor.
    + rewrite in_app_iff. simpl. intros [K|[K|[]]]; [tauto|].
      apply Hx. now left.
    + apply IH; [assumption|]. intros K. apply Hx. now right.
Qed.

Lemma step_responders_NoDup h d now op :
  NoDup (responders d) -> NoDup (responders (step h d (now, op))).
Proof.
  intros Hd.
  destruct (step_cases h d now op) as [E|[(r & _ & Hr & _ & _ & E & _)|
    [(p & a & _ & _ & E & _)|(s & _ & E & _)]]]; unfold responders.
  - now rewrite E.
  - rewrite E, map_pharmacy_recompute, map_app. simpl.
    now apply NoDup_snoc.
  - now rewrite E, map_pharmacy_recompute, map_pharmacy_deactivate.
  - now rewrite E, map_pharmacy_recompute.
Qed.

Lemma create_responses t0 patientId n :
  responses (MedicineRequest.create t0 patientId n) = [].
Proof.
  unfold MedicineRequest.create, MedicineRequest.save.
  now rewrite pre_save_responses.
Qed.

Lemma reachable_responders_NoDup h t0 patientId n cs :
  NoDup (responders (exec h cs (MedicineRequest.create t0 patientId n))).
Proof.
  apply exec_invariant.
  - intros d now op. apply step_responders_NoDup.
  - unfold responders. rewrite create_responses. constructor.
Qed.



(** ** Prices *)

Lemma price_ok_discount_ok r : price_ok r -> discount_ok r.
Proof. intros [H _]. exact H. Qed.

Lemma recompute_price_ok r : discount_ok r -> price_ok (MedicineRequest.recompute r).
Proof.
  unfold discount_ok, price_ok, MedicineRequest.recompute,
    MedicineRequestController.discount_for, stored_discount,
    stored_final_price.
  intros H. rewrite H.
  destruct (1000 <? totalPrice r)%float eqn:E.
  - change (0 <? 5)%float with true. simpl. rewrite E.
    split; [assumption|reflexivity].
  - change (0 <? 0)%float with false. simpl. rewrite E.
    split; [assumption|reflexivity].
Qed.

Lemma recompute_fixed r : price_ok r -> MedicineRequest.recompute r = r.
Proof.
  intros H. pose proof (recompute_price_ok _ (price_ok_discount_ok _ H)) as K.
  destruct H as [Hd Hf], K as [_ Kf].
  rewrite recompute_totalPrice in Kf.
  unfold MedicineRequest.recompute in *.
  destruct r as [ph am tp di fp ms et da dc ra ia]; simpl in *.
  destruct (0 <? di)%float; simpl in *; subst fp; unfold set_finalPrice;
    simpl; congruence.
Qed.

Lemma deactivate_other_discount_ok p r :
  discount_ok r -> discount_ok (MedicineRequest.deactivate_other p r).
Proof.
  unfold discount_ok, MedicineRequest.deactivate_other.
  destruct (negb (pharmacy r =? p)%N); simpl; auto.
Qed.

Lemma Forall_recompute rs :
  Forall discount_ok rs -> Forall price_ok (map MedicineRequest.recompute rs).
Proof.
  intros H. apply Forall_map. eapply Forall_impl; [|exact H].
  intros r. apply recompute_price_ok.
Qed.

Lemma step_prices h d now op :
  Forall price_ok (responses d) ->
  Forall price_ok (responses (step h d (now, op))).
Proof.
  intros Hd.
  assert (Hd' : Forall discount_ok (responses d)).
  { eapply Forall_impl; [|exact Hd]. apply price_ok_discount_ok. }
  destruct (step_cases h d now op) as [E|[(r & _ & _ & _ & Hr & E & _)|
    [(p & a & _ & _ & E & _)|(s & _ & E & _)]]]; rewrite E; clear E.
  - assumption.
  - apply Forall_recompute, Forall_app. split; [assumption|].
    constructor; [exact Hr|constructor].
  - apply Forall_recompute, Forall_map. eapply Forall_impl; [|exact Hd'].
    intros r. apply deactivate_other_discount_ok.
  - now apply Forall_recompute.
Qed.

Lemma reachable_prices h t0 patientId n cs :
  Forall price_ok
    (responses (exec h cs (MedicineRequest.create t0 patientId n))).
Proof.
  apply exec_invariant with
    (P := fun d => Forall price_ok (responses d)).
  - intros d now op. apply step_prices.
  - rewrite create_responses. constructor.
Qed.

(** C6, as amended: on every response of a request reached from a created
    one, the discount is 5 when the total exceeds 1000 and 0 otherwise, the
    final price is [totalPrice - totalPrice * 5 / 100] (in this order, in
    double arithmetic) when the total exceeds 1000 and the total itself
    otherwise, and the pre-save recomputation leaves the response as it is;
    a total of 1200 gives discount 5 and final price 1140, a total of 900
    gives discount 0 and final price 900. *)
Theorem price_determinism h t0 patientId n cs r :
  In r (responses (exec h cs (MedicineRequest.create t0 patientId n))) ->
  discount r = stored_discount (totalPrice r) /\
  finalPrice r = stored_final_price (totalPrice r) /\
  MedicineRequest.recompute r = r /\
  (totalPrice r = 1200%float ->
   discount r = 5%float /\ finalPrice r = 1140%float) /\
  (totalPrice r = 900%float ->
   discount r = 0%float /\ finalPrice r = 900%float).
Proof.
  intros Hin.
  pose proof (reachable_prices h t0 patientId n cs) as H.
  rewrite Forall_forall in H. specialize (H r Hin).
  pose proof (recompute_fixed _ H) as Hfix.
  destruct H as [Hd Hf].
  split; [exact Hd|]. split; [exact Hf|]. split; [exact Hfix|].
  split; intros Ht; rewrite Hd, Hf, Ht; split; reflexivity.
Qed.

Lemma price_determinism_witness :
  map (fun r => (totalPrice r, discount r, finalPrice r))
      (responses two_offers)
  = [(1200, 5, 1140); (900, 0, 900)]%float /\
  (forall r, In r (responses two_offers) ->
             finalPrice r = stored_final_price (totalPrice r)).
Proof.
  split; [vm_compute; reflexivity|].
  intros r Hr.
  assert (E : two_offers
              = exec true
                  [(1000, RespondToRequest pharmacyA (offer 1200%float));
                   (2000, RespondToRequest pharmacyB (offer 900%float))]
                  (MedicineRequest.create 0 1%N None))
    by (vm_compute; reflexivity).
  rewrite E in Hr.
  destruct (price_determinism true 0 1%N None
              [(1000, RespondToRequest pharmacyA (offer 1200%float));
               (2000, RespondToRequest pharmacyB (offer 900%float))] r Hr)
    as (_ & H & _).
  exact H.
Defined.

(** C6, as stated, fails: for a total of 1001 the stored final price is
    not [totalPrice * (1 - discount / 100)] in double arithmetic. *)
Lemma price_formula_counterexample :
  exists r,
    In r (responses offer_1001) /\
    totalPrice r = 1001%float /\
    discount r = 5%float /\
    (finalPrice r =? spec_final_price (totalPrice r) (discount r))%float
    = false /\
    finalPrice r <> spec_final_price (totalPrice r) (discount r).
Proof.
  eexists. split; [vm_compute; left; reflexivity|].
  vm_compute. repeat split. intro H. discriminate H.
Qed.

(** ** Responding to a request that is not open *)

Lemma respond_closed_helper h now u body d :
  role u = Role.pharmacy ->
  status d <> Status.open ->
  MedicineRequestController.respondToRequest h now u body (Some d)
  = mkOutcome RequestClosed None [].
Proof.
  intros Hrole Hs. unfold MedicineRequestController.respondToRequest.
  rewrite Hrole. simpl.
  now rewrite (Status_eqb_neq _ _ Hs).
Qed.

(** C4: for a request whose status is not open, [respondToRequest] by a
    pharmacy answers with the request-closed error, saves nothing and pushes
    no event; a call that saves a document was made on an open request. *)
Theorem respond_requires_open h now u body d :
  role u = Role.pharmacy ->
  (status d <> Status.open ->
   MedicineRequestController.respondToRequest h now u body (Some d)
   = mkOutcome RequestClosed None []) /\
  (forall d',
     saved (MedicineRequestController.respondToRequest h now u body (Some d))
     = Some d' ->
     status d = Status.open).
Proof.
  intros Hrole. unfold MedicineRequestController.respondToRequest.
  rewrite Hrole. simpl.
  destruct (Status_eqb_spec (status d) Status.open) as [Hs|Hs]; simpl.
  - split; [congruence|auto].
  - split; [reflexivity|discriminate].
Qed.

Lemma respond_requires_open_witness :
  status accepted_A = Status.accepted /\
  MedicineRequestController.respondToRequest true 3500 pharmacyB
    (offer 900%float) (Some accepted_A)
  = mkOutcome RequestClosed None [].
Proof.
  split; [reflexivity|].
  apply (respond_requires_open true 3500 pharmacyB (offer 900%float)
           accepted_A).
  - reflexivity.
  - vm_compute. discriminate.
Defined.

(** ** Accepting a response *)

(** After the model's [acceptPharmacy], no response of another pharmacy is
    active: the filter of the controller selects nothing. *)
Lemma no_other_active p rs :
  filter (fun r => negb (pharmacy r =? p)%N && isActive r)
         (map MedicineRequest.recompute
              (map (MedicineRequest.deactivate_other p) rs)) = [].
Proof.
  induction rs as [|r rs IH]; [reflexivity|].
  simpl. rewrite recompute_pharmacy, recompute_isActive, IH.
  rewrite deactivate_other_pharmacy.
  unfold MedicineRequest.deactivate_other.
  destruct (pharmacy r =? p)%N; reflexivity.
Qed.




(** The list [otherPharmacies] of the controller is always empty: no call
    of [acceptPharmacy] pushes a request-closed event. *)
Lemma accept_emits_no_request_closed h now u p i found e :
  In e (emitted
          (MedicineRequestController.acceptPharmacy h now u p i found)) ->
  event e = "request_accepted" /\ target e = p.
Proof.
  unfold MedicineRequestController.acceptPharmacy.
  destruct found as [d|]; [|intros []].
  destruct (negb (patient d =? _id u)%N); [intros []|].
  destruct (negb (Status.eqb (status d) Status.open)); [intros []|].
  unfold MedicineRequest.acceptPharmacy.
  destruct (MedicineRequest.find_response p d); [|intros []].
  cbv zeta. cbn [emitted]. destruct h; [|intros []].
  unfold MedicineRequest.save. rewrite pre_save_responses. simpl responses.
  rewrite no_other_active. simpl.
  intros [<-|[]]. split; reflexivity.
Qed.


(** ** Expiry *)

(** C7, as amended: for a request stored as open whose [expiresAt] is in
    the past, the read by the patient returns the document as stored, with
    status open; a save of the document turns the status into expired, and
    from then on [respondToRequest] by a pharmacy is answered with the
    request-closed error and saves nothing. *)
Theorem lazy_expiry now d :
  status d = Status.open ->
  expiresAt d < now ->
  (forall reader,
     patient d = _id reader ->
     getRequestResponses reader (Some d) = (mkReply 200 "success", Some d)) /\
  status (MedicineRequest.save now d) = Status.expired /\
  (forall h now' u body,
     role u = Role.pharmacy ->
     MedicineRequestController.respondToRequest h now' u body
       (Some (MedicineRequest.save now d))
     = mkOutcome RequestClosed None []).
Proof.
  intros Hs Hpast.
  assert (Hexp : status (MedicineRequest.save now d) = Status.expired).
  { unfold MedicineRequest.save. rewrite pre_save_status, Hs. simpl.
    apply Z.ltb_lt in Hpast. now rewrite Hpast. }
  split; [|split].
  - intros reader Hp. unfold getRequestResponses.
    rewrite Hp, N.eqb_refl. reflexivity.
  - exact Hexp.
  - intros h now' u body Hrole.
    apply (respond_closed_helper h now' u body _ Hrole).
    rewrite Hexp. discriminate.
Qed.

Lemma lazy_expiry_witness :
  status fresh = Status.open /\
  expiresAt fresh < after_expiry /\
  status (MedicineRequest.save after_expiry fresh) = Status.expired.
Proof.
  assert (Hs : status fresh = Status.open) by reflexivity.
  assert (Hp : expiresAt fresh < after_expiry) by (vm_compute; reflexivity).
  destruct (lazy_expiry after_expiry fresh Hs Hp) as (_ & H & _).
  split; [exact Hs|split; [exact Hp|exact H]].
Defined.

(** C7, as stated, fails: one second after the expiry of a request stored
    as open, the read still shows status open, and [respondToRequest]
    succeeds and appends the response. *)
Lemma expiry_counterexample :
  status fresh = Status.open /\
  expiresAt fresh < after_expiry /\
  option_map status (snd (getRequestResponses alice (Some fresh)))
  = Some Status.open /\
  option_map status (snd (getRequestResponses alice (Some fresh)))
  <> Some Status.expired /\
  res (MedicineRequestController.respondToRequest true after_expiry
         pharmacyA (offer 900%float) (Some fresh))
  <> RequestClosed /\
  res_status
    (res (MedicineRequestController.respondToRequest true after_expiry
            pharmacyA (offer 900%float) (Some fresh)))
  = 200 /\
  option_map responders
    (saved (MedicineRequestController.respondToRequest true after_expiry
              pharmacyA (offer 900%float) (Some fresh)))
  = Some [10%N].
Proof.
  vm_compute. repeat split; try discriminate.
Qed.

(** ** Status updates *)

(** C8, as amended: for every call of [updateRequestStatus] by the patient
    or the accepted pharmacy, whatever the current and the requested
    status, the call succeeds and the requested status is saved (the save
    turns a requested open into expired when [expiresAt] is past); no
    requested status is refused. *)
Theorem update_status_unchecked h now u newStatus newNotes d :
  MedicineRequestController.isPatient u d = true \/
  MedicineRequestController.isAcceptedPharmacy u d = true ->
  exists d',
    res (MedicineRequestController.updateRequestStatus h now u newStatus
           newNotes (Some d))
    = mkReply 200 "Request status updated successfully" /\
    saved (MedicineRequestController.updateRequestStatus h now u newStatus
             newNotes (Some d))
    = Some d' /\
    status d' =
      (if Status.eqb newStatus Status.open && (expiresAt d <? now)
       then Status.expired else newStatus) /\
    (newStatus <> Status.open -> status d' = newStatus).
Proof.
  intros Hauth.
  unfold MedicineRequestController.updateRequestStatus.
  assert (E : negb (MedicineRequestController.isPatient u d) &&
              negb (MedicineRequestController.isAcceptedPharmacy u d)
              = false).
  { destruct Hauth as [H|H]; rewrite H; simpl;
      [reflexivity|apply andb_false_r]. }
  rewrite E. cbv zeta. eexists. split; [reflexivity|].
  split; [reflexivity|].
  unfold MedicineRequest.save. rewrite pre_save_status.
  assert (Hst : status (if truthy_opt_string newNotes
                        then set_notes newNotes (set_status newStatus d)
                        else set_status newStatus d) = newStatus)
    by (destruct (truthy_opt_string newNotes); reflexivity).
  assert (Hex : expiresAt (if truthy_opt_string newNotes
                           then set_notes newNotes (set_status newStatus d)
                           else set_status newStatus d) = expiresAt d)
    by (destruct (truthy_opt_string newNotes); reflexivity).
  rewrite Hst, Hex. split; [reflexivity|].
  intros Hne. now rewrite (Status_eqb_neq _ _ Hne).
Qed.

Lemma update_status_unchecked_witness :
  option_map status
    (saved (MedicineRequestController.updateRequestStatus true 9000 alice
              Status.open None (Some completed_A)))
  = Some Status.open.
Proof.
  destruct (update_status_unchecked true 9000 alice Status.open None
              completed_A) as (d' & _ & Hsaved & Hst & _).
  - left. reflexivity.
  - rewrite Hsaved. simpl. rewrite Hst. reflexivity.
Defined.

(** C8, as stated, fails: the specification has no edge from completed to
    open, yet the patient's request to set a completed request back to
    open succeeds and the stored status becomes open. *)
Lemma transition_counterexample :
  status completed_A = Status.completed /\
  spec_allowed_edge Status.completed Status.open = false /\
  res_status
    (res (MedicineRequestController.updateRequestStatus true 9000 alice
            Status.open None (Some completed_A)))
  = 200 /\
  status
    (stored_after completed_A
       (MedicineRequestController.updateRequestStatus true 9000 alice
          Status.open None (Some completed_A)))
  = Status.open.
Proof. vm_compute. repeat split. Qed.

(** ** One active response once a pharmacy is accepted *)

Lemma exec_invariant_on (ok : Z * Op -> bool) (P : Request -> Prop) h :
  (forall d c, ok c = true -> P d -> P (step h d c)) ->
  forall cs d, forallb ok cs = true -> P d -> P (exec h cs d).
Proof.
  intros Hstep cs. unfold exec.
  induction cs as [|c cs IH]; simpl; intros d Hok Hd.
  - assumption.
  - apply andb_true_iff in Hok. destruct Hok as [Hc Hcs].
    apply IH; [assumption|]. now apply Hstep.
Qed.

Lemma status_after_save_not_open now d s :
  s <> Status.open -> status_after_save now d s <> Status.open.
Proof.
  unfold status_after_save. intros Hs.
  destruct (Status.eqb s Status.open && (expiresAt d <? now));
    [discriminate|assumption].
Qed.

Lemma step_acceptance_invariant h d c :
  negb (reopens c) = true ->
  acceptance_invariant d -> acceptance_invariant (step h d c).
Proof.
  destruct c as [now op]. intros Hok Hd.
  destruct (step_cases h d now op) as [E|[(r & Hs & _ & Hr & _ & E & Ea & _)|
    [(p & a & Hs & Hin & E & Ea & Hp & Es)|(s & Hsrc & E & Ea & Es)]]].
  - now rewrite E.
  - (* a response is appended to an open request *)
    unfold acceptance_invariant in *. rewrite Ea.
    destruct (acceptedPharmacy d) as [a|]; [destruct Hd as [Hd _]; tauto|].
    intros r' Hr'. rewrite E in Hr'.
    apply in_map_iff in Hr'. destruct Hr' as (r1 & <- & Hr1).
    rewrite recompute_isActive.
    apply in_app_iff in Hr1. destruct Hr1 as [Hr1|[<-|[]]]; auto.
  - (* a responder of an open request is accepted *)
    unfold acceptance_invariant in *. rewrite Ea, Es, Hp.
    destruct (acceptedPharmacy d) as [a0|]; [destruct Hd as [Hd _]; tauto|].
    split; [discriminate|]. split.
    + destruct (find_response_in _ _ Hin) as [r0 Hr0].
      apply find_response_some in Hr0. destruct Hr0 as [Hr0 Hp0].
      exists (MedicineRequest.recompute
                (MedicineRequest.deactivate_other p r0)).
      rewrite E, recompute_pharmacy, recompute_isActive,
        deactivate_other_pharmacy.
      split; [now apply in_map, in_map|]. split; [assumption|].
      unfold MedicineRequest.deactivate_other.
      rewrite Hp0, N.eqb_refl. simpl. now apply Hd.
    + intros r' Hr' Hact. rewrite E in Hr'.
      apply in_map_iff in Hr'. destruct Hr' as (r1 & <- & Hr1).
      apply in_map_iff in Hr1. destruct Hr1 as (r2 & <- & Hr2).
      rewrite recompute_isActive in Hact.
      rewrite recompute_pharmacy, deactivate_other_pharmacy.
      unfold MedicineRequest.deactivate_other in Hact.
      destruct (N.eqb_spec (pharmacy r2) p); [assumption|discriminate].
  - (* only a status is written *)
    assert (Hact : forall r', In r' (responses (step h d (now, op))) ->
                   exists r2, In r2 (responses d) /\
                              pharmacy r' = pharmacy r2 /\
                              isActive r' = isActive r2).
    { intros r' Hr'. rewrite E in Hr'.
      apply in_map_iff in Hr'. destruct Hr' as (r2 & <- & Hr2).
      exists r2. now rewrite recompute_pharmacy, recompute_isActive. }
    unfold acceptance_invariant in *. rewrite Ea.
    destruct (acceptedPharmacy d) as [a|].
    + destruct Hd as (Hopen & (r0 & Hr0 & Hp0 & Ha0) & Hall).
      split; [|split].
      * rewrite Es. apply status_after_save_not_open.
        destruct Hsrc as [->|(u & n & ->)]; [assumption|].
        unfold reopens in Hok. simpl in Hok.
        intros ->. discriminate.
      * exists (MedicineRequest.recompute r0).
        rewrite E, recompute_pharmacy, recompute_isActive.
        split; [now apply in_map|]. split; assumption.
      * intros r' Hr' Ha'. destruct (Hact r' Hr') as (r2 & Hr2 & -> & Hi).
        apply Hall; [assumption|congruence].
    + intros r' Hr'. destruct (Hact r' Hr') as (r2 & Hr2 & _ & ->).
      now apply Hd.
Qed.

Lemma filter_none (A : Type) (f : A -> bool) (l : list A) :
  (forall x, In x l -> f x = false) -> filter f l = [].
Proof.
  induction l as [|a l IH]; simpl; intros H; [reflexivity|].
  rewrite (H a (or_introl eq_refl)). apply IH.
  intros x Hx. apply H. now right.
Qed.

(** With unique pharmacy ids, an active response whose pharmacy is the one
    of every active response is the only active response. *)
Lemma only_active rs r :
  NoDup (map pharmacy rs) ->
  In r rs ->
  isActive r = true ->
  (forall r', In r' rs -> isActive r' = true -> pharmacy r' = pharmacy r) ->
  filter isActive rs = [r].
Proof.
  induction rs as [|x rs IH]; simpl; intros Hnd Hin Hr Hall; [contradiction|].
  inversion Hnd as [|y ys Hx Hrs]; subst.
  destruct (isActive x) eqn:Ex.
  - assert (Hpx : pharmacy x = pharmacy r) by (apply Hall; auto).
    assert (x = r) as ->.
    { destruct Hin as [Hin|Hin]; [assumption|].
      exfalso. apply Hx. rewrite Hpx. now apply in_map. }
    f_equal. apply filter_none. intros r' Hr'.
    destruct (isActive r') eqn:E'; [|reflexivity].
    exfalso. apply Hx. rewrite <- (Hall r' (or_intror Hr') E').
    now apply in_map.
  - destruct Hin as [Hin|Hin]; [congruence|].
    apply IH; auto.
Qed.

Lemma create_acceptedPharmacy t0 patientId n :
  acceptedPharmacy (MedicineRequest.create t0 patientId n) = None.
Proof.
  unfold MedicineRequest.create, MedicineRequest.save.
  now rewrite pre_save_acceptedPharmacy.
Qed.




(** ** Validation of the origin *)




(** ** The haversine distance *)

Section Distance.

Local Open Scope R_scope.







End Distance.

(** * Further properties of the life cycle *)

Lemma pre_save_communication now d :
  communication (MedicineRequest.pre_save now d) = communication d.
Proof.
  unfold MedicineRequest.pre_save.
  destruct (Status.eqb (status d) Status.open && (expiresAt d <? now));
    reflexivity.
Qed.

Lemma pre_save_notes now d :
  notes (MedicineRequest.pre_save now d) = notes d.
Proof.
  unfold MedicineRequest.pre_save.
  destruct (Status.eqb (status d) Status.open && (expiresAt d <? now));
    reflexivity.
Qed.

Lemma pre_save_responseCount now d :
  responseCount (MedicineRequest.pre_save now d) = responseCount d.
Proof.
  unfold MedicineRequest.pre_save.
  destruct (Status.eqb (status d) Status.open && (expiresAt d <? now));
    reflexivity.
Qed.

(** The document a call stores, call by call. *)
Lemma step_shape h d now op :
  step h d (now, op) = d
  \/ (exists u body,
        op = RespondToRequest u body /\
        role u = Role.pharmacy /\
        status d = Status.open /\
        ~ In (_id u) (responders d) /\
        step h d (now, op) =
          MedicineRequest.save now
            (set_responseCount (responseCount d + 1)
               (set_responses (responses d ++ [pushed_response now u body])
                  d)))
  \/ (exists u p i,
        op = AcceptPharmacy u p i /\
        patient d = _id u /\
        status d = Status.open /\
        In p (responders d) /\
        step h d (now, op) =
          MedicineRequest.save now
            (set_responses
               (map (MedicineRequest.deactivate_other p) (responses d))
               (set_acceptedPharmacy
                  (mkAcceptedPharmacy p now
                     (MedicineRequestController.calculateEstimatedReadyTime
                        now d p) i)
                  (set_status Status.accepted d))))
  \/ (exists u s n,
        op = UpdateRequestStatus u s n /\
        party d u = true /\
        step h d (now, op) =
          MedicineRequest.save now
            (if truthy_opt_string n
             then set_notes n (set_status s d)
             else set_status s d))
  \/ (exists u msg ty,
        op = AddCommunication u msg ty /\
        party d u = true /\
        step h d (now, op) =
          MedicineRequest.save now
            (set_communication
               (communication d ++ [mkCommunication (_id u) msg ty now]) d)).
Proof.
  unfold step, stored_after; simpl fst; simpl snd.
  destruct op as [u body|u p i|u s n|u msg ty]; simpl.
  - unfold MedicineRequestController.respondToRequest.
    destruct (Role.eqb (role u) Role.pharmacy) eqn:Hr; simpl; [|now left].
    destruct (Status_eqb_spec (status d) Status.open) as [Hs|Hs];
      simpl; [|now left].
    unfold MedicineRequest.addResponse.
    destruct (MedicineRequest.find_response (_id u) d) eqn:Hf;
      [now left|].
    right; left. exists u, body. repeat split; try assumption.
    + destruct (role u); simpl in Hr; congruence.
    + now apply find_response_none.
  - unfold MedicineRequestController.acceptPharmacy.
    destruct (N.eqb_spec (patient d) (_id u)) as [Hp|Hp];
      simpl; [|now left].
    destruct (Status_eqb_spec (status d) Status.open) as [Hs|Hs];
      simpl; [|now left].
    unfold MedicineRequest.acceptPharmacy.
    destruct (MedicineRequest.find_response p d) as [r0|] eqn:Hf;
      [|now left].
    right; right; left. exists u, p, i. repeat split; try assumption.
    apply find_response_some in Hf. destruct Hf as [Hin Hp0].
    unfold responders. rewrite <- Hp0. now apply in_map.
  - unfold MedicineRequestController.updateRequestStatus.
    destruct (negb (MedicineRequestController.isPatient u d) &&
              negb (MedicineRequestController.isAcceptedPharmacy u d))
      eqn:Ha; [now left|].
    right; right; right; left. exists u, s, n. repeat split.
    unfold party.
    destruct (MedicineRequestController.isPatient u d),
      (MedicineRequestController.isAcceptedPharmacy u d);
      simpl in *; congruence.
  - unfold MedicineRequestController.addCommunication.
    destruct (negb (MedicineRequestController.isPatient u d) &&
              negb (MedicineRequestController.isAcceptedPharmacy u d))
      eqn:Ha; [now left|].
    right; right; right; right. exists u, msg, ty. repeat split.
    unfold party.
    destruct (MedicineRequestController.isPatient u d),
      (MedicineRequestController.isAcceptedPharmacy u d);
      simpl in *; congruence.
Qed.

Lemma step_keeps_patient h d c : patient (step h d c) = patient d.
Proof.
  destruct c as [now op].
  destruct (step_shape h d now op)
    as [E|[(u & body & _ & _ & _ & _ & E)|[(u & p & i & _ & _ & _ & _ & E)|
       [(u & s & n & _ & _ & E)|(u & msg & ty & _ & _ & E)]]]];
    rewrite E; clear E; unfold MedicineRequest.save;
    rewrite ?pre_save_patient; try reflexivity.
  destruct (truthy_opt_string n); reflexivity.
Qed.

Lemma exec_keeps_patient h cs d : patient (exec h cs d) = patient d.
Proof.
  apply exec_invariant with (P := fun d' => patient d' = patient d).
  - intros d1 now op H1. now rewrite step_keeps_patient.
  - reflexivity.
Qed.

(** X1: whatever calls are made, the patient and the expiry time of a
    request never change, and its communication log only grows at the end:
    the earlier messages stay, in order. *)
Theorem exec_keeps_identity_and_log h cs d :
  patient (exec h cs d) = patient d /\
  expiresAt (exec h cs d) = expiresAt d /\
  exists later,
    communication (exec h cs d) = (communication d ++ later)%list.
Proof.
  apply exec_invariant with
    (P := fun d' => patient d' = patient d /\
                    expiresAt d' = expiresAt d /\
                    exists later,
                      communication d' = (communication d ++ later)%list).
  - intros d1 now op (Hp & He & later & Hc).
    destruct (step_shape h d1 now op)
      as [E|[(u & body & _ & _ & _ & _ & E)|[(u & p & i & _ & _ & _ & _ & E)|
         [(u & s & n & _ & _ & E)|(u & msg & ty & _ & _ & E)]]]];
      rewrite E; clear E; unfold MedicineRequest.save;
      rewrite ?pre_save_patient, ?pre_save_expiresAt, ?pre_save_communication.
    + split; [assumption|split; [assumption|now exists later]].
    + simpl. split; [assumption|split; [assumption|now exists later]].
    + simpl. split; [assumption|split; [assumption|now exists later]].
    + destruct (truthy_opt_string n); simpl;
        (split; [assumption|split; [assumption|now exists later]]).
    + simpl. split; [assumption|split; [assumption|]].
      exists (later ++ [mkCommunication (_id u) msg ty now])%list.
      now rewrite Hc, app_assoc.
  - split; [reflexivity|split; [reflexivity|]]. exists []. now rewrite app_nil_r.
Qed.

(** X2: in every state reached from a created request, the response
    counter of the analytics equals the number of responses. *)
Theorem responseCount_is_length h t0 patientId n cs :
  responseCount (exec h cs (MedicineRequest.create t0 patientId n))
  = Z.of_nat
      (List.length (responses (exec h cs (MedicineRequest.create t0 patientId n)))).
Proof.
  apply exec_invariant with
    (P := fun d => responseCount d = Z.of_nat (List.length (responses d))).
  - intros d now op Hd.
    destruct (step_shape h d now op)
      as [E|[(u & body & _ & _ & _ & _ & E)|[(u & p & i & _ & _ & _ & _ & E)|
         [(u & s & n0 & _ & _ & E)|(u & msg & ty & _ & _ & E)]]]];
      rewrite E; clear E; unfold MedicineRequest.save;
      rewrite ?pre_save_responseCount, ?pre_save_responses, ?List.length_map.
    + assumption.
    + simpl. rewrite List.length_app. simpl. lia.
    + simpl. now rewrite List.length_map.
    + destruct (truthy_opt_string n0); simpl; assumption.
    + simpl. assumption.
  - unfold MedicineRequest.create, MedicineRequest.save.
    rewrite pre_save_responseCount, pre_save_responses. reflexivity.
Qed.

Lemma same_offer_refl r : same_offer r r.
Proof. unfold same_offer. repeat split; auto. Qed.

Lemma same_offer_trans r1 r2 r3 :
  same_offer r1 r2 -> same_offer r2 r3 -> same_offer r1 r3.
Proof.
  unfold same_offer.
  intros (A1 & A2 & A3 & A4 & A5 & A6) (B1 & B2 & B3 & B4 & B5 & B6).
  repeat split; try congruence. auto.
Qed.

Lemma same_offer_recompute r : same_offer r (MedicineRequest.recompute r).
Proof.
  unfold same_offer, MedicineRequest.recompute.
  destruct (0 <? discount r)%float; simpl; repeat split; auto.
Qed.

Lemma same_offer_deactivate p r :
  same_offer r (MedicineRequest.deactivate_other p r).
Proof.
  unfold same_offer, MedicineRequest.deactivate_other.
  destruct (negb (pharmacy r =? p)%N); simpl; repeat split; auto.
Qed.

(** X3: no call removes, moves or replaces a response: the response at a
    position stays at that position, with the same pharmacy, medicines,
    total, discount and date, and once it is inactive it is never active
    again. *)
Theorem responses_persist h cs d i r :
  nth_error (responses d) i = Some r ->
  exists r',
    nth_error (responses (exec h cs d)) i = Some r' /\ same_offer r r'.
Proof.
  intros Hr.
  apply exec_invariant with
    (P := fun d' => exists r', nth_error (responses d') i = Some r' /\
                               same_offer r r').
  - intros d1 now op (r1 & H1 & S1).
    destruct (step_shape h d1 now op)
      as [E|[(u & body & _ & _ & _ & _ & E)|[(u & p & i0 & _ & _ & _ & _ & E)|
         [(u & s & n & _ & _ & E)|(u & msg & ty & _ & _ & E)]]]];
      rewrite E; clear E; unfold MedicineRequest.save;
      rewrite ?pre_save_responses.
    + now exists r1.
    + simpl. exists (MedicineRequest.recompute r1). split.
      * rewrite nth_error_map, nth_error_app1, H1; [reflexivity|].
        apply nth_error_Some. congruence.
      * eapply same_offer_trans; [exact S1|apply same_offer_recompute].
    + simpl.
      exists (MedicineRequest.recompute
                (MedicineRequest.deactivate_other p r1)).
      split.
      * now rewrite !nth_error_map, H1.
      * eapply same_offer_trans; [exact S1|].
        eapply same_offer_trans;
          [apply same_offer_deactivate|apply same_offer_recompute].
    + exists (MedicineRequest.recompute r1). split.
      * destruct (truthy_opt_string n); simpl; now rewrite nth_error_map, H1.
      * eapply same_offer_trans; [exact S1|apply same_offer_recompute].
    + simpl. exists (MedicineRequest.recompute r1). split.
      * now rewrite nth_error_map, H1.
      * eapply same_offer_trans; [exact S1|apply same_offer_recompute].
  - exists r. split; [assumption|apply same_offer_refl].
Qed.

Lemma responses_persist_witness :
  exists r r',
    nth_error (responses accepted_A) 1 = Some r /\ isActive r = false /\
    nth_error (responses reaccepted) 1 = Some r' /\ isActive r' = false.
Proof.
  assert (Hr : exists r, nth_error (responses accepted_A) 1 = Some r /\
                         isActive r = false).
  { eexists. vm_compute. split; reflexivity. }
  destruct Hr as (r & Hr & Ha).
  destruct (responses_persist true
              [(4000, UpdateRequestStatus alice Status.open None);
               (5000, AcceptPharmacy alice 11%N None)]
              accepted_A 1 r Hr) as (r' & Hn & S).
  assert (E : reaccepted
              = exec true
                  [(4000, UpdateRequestStatus alice Status.open None);
                   (5000, AcceptPharmacy alice 11%N None)] accepted_A)
    by (vm_compute; reflexivity).
  exists r, r'. rewrite E.
  split; [exact Hr|]. split; [exact Ha|]. split; [exact Hn|].
  apply S. exact Ha.
Defined.



(** X5: a user who is neither the patient, nor the accepted pharmacy, nor
    a pharmacy cannot change a request: whatever calls such users make, the
    stored document is the same, and each call alone is answered with 403,
    saves nothing and pushes no event. *)
Theorem outsiders_change_nothing h cs d :
  forallb (fun c => outsider d (caller (snd c))) cs = true ->
  exec h cs d = d /\
  forall c, In c cs ->
    res_status (res (call h (fst c) (snd c) d)) = 403 /\
    saved (call h (fst c) (snd c) d) = None /\
    emitted (call h (fst c) (snd c) d) = [].
Proof.
  assert (Hone : forall now op, outsider d (caller op) = true ->
                 res_status (res (call h now op d)) = 403 /\
                 saved (call h now op d) = None /\
                 emitted (call h now op d) = []).
  { intros now op Ho. unfold outsider in Ho.
    apply andb_true_iff in Ho. destruct Ho as [Ho Hr].
    apply andb_true_iff in Ho. destruct Ho as [Hp Ha].
    destruct op as [u body|u p i|u s n|u msg ty]; simpl in *.
    - unfold MedicineRequestController.respondToRequest. rewrite Hr.
      repeat split.
    - unfold MedicineRequestController.acceptPharmacy.
      unfold MedicineRequestController.isPatient in Hp. rewrite Hp.
      repeat split.
    - unfold MedicineRequestController.updateRequestStatus.
      rewrite Hp, Ha. repeat split.
    - unfold MedicineRequestController.addCommunication.
      rewrite Hp, Ha. repeat split. }
  intros Hcs. split.
  - induction cs as [|[now op] cs IH]; [reflexivity|].
    simpl in Hcs. apply andb_true_iff in Hcs. destruct Hcs as [Hc Hcs].
    unfold exec in *. simpl.
    destruct (Hone now op Hc) as (_ & Hs & _).
    unfold step, stored_after. simpl. rewrite Hs. now apply IH.
  - intros [now op] Hin. apply Hone.
    rewrite forallb_forall in Hcs. apply (Hcs _ Hin).
Qed.

Lemma outsiders_change_nothing_witness :
  exec true [(2500, AcceptPharmacy (mkUser 99%N Role.user) 11%N None);
             (2600, UpdateRequestStatus (mkUser 99%N Role.user)
                      Status.cancelled None)] two_offers
  = two_offers.
Proof.
  apply (outsiders_change_nothing true
           [(2500, AcceptPharmacy (mkUser 99%N Role.user) 11%N None);
            (2600, UpdateRequestStatus (mkUser 99%N Role.user)
                     Status.cancelled None)] two_offers).
  vm_compute. reflexivity.
Defined.

Lemma recompute_idempotent r :
  MedicineRequest.recompute (MedicineRequest.recompute r)
  = MedicineRequest.recompute r.
Proof.
  unfold MedicineRequest.recompute.
  destruct (0 <? discount r)%float eqn:E; simpl; rewrite E; reflexivity.
Qed.

(** X6: two saves in a row store what the later one alone would store:
    the pre-save hook run at [t1] and then at [t2], [t1 <= t2], gives the
    document of the hook run at [t2]; in particular the hook is
    idempotent. *)
Theorem saves_compose t1 t2 d :
  t1 <= t2 ->
  MedicineRequest.save t2 (MedicineRequest.save t1 d)
  = MedicineRequest.save t2 d.
Proof.
  intros Ht. unfold MedicineRequest.save, MedicineRequest.pre_save.
  destruct d as [pa st rs ap co no ex rc]. simpl.
  assert (Hm : map MedicineRequest.recompute
                   (map MedicineRequest.recompute rs)
               = map MedicineRequest.recompute rs).
  { rewrite map_map. apply map_ext. apply recompute_idempotent. }
  destruct (Status_eqb_spec st Status.open) as [->|Hs]; simpl.
  - destruct (Z.ltb_spec ex t1) as [H1|H1]; simpl.
    + destruct (Z.ltb_spec ex t2) as [H2|H2]; [|lia].
      unfold set_responses, set_status. simpl. now rewrite Hm.
    + destruct (Z.ltb_spec ex t2) as [H2|H2];
        unfold set_responses, set_status; simpl; now rewrite Hm.
  - rewrite (Status_eqb_neq _ _ Hs). simpl.
    unfold set_responses. simpl. now rewrite Hm.
Qed.

Lemma saves_compose_witness :
  MedicineRequest.save after_expiry (MedicineRequest.save 5000 two_offers)
  = MedicineRequest.save after_expiry two_offers.
Proof.
  apply (saves_compose 5000 after_expiry two_offers).
  vm_compute. discriminate.
Defined.

(** X7: a save changes nothing in a state reached from a created request
    unless the request is open and past its expiry: the final prices are
    already the ones the hook computes. *)
Theorem save_is_identity h t0 patientId n cs now :
  status (exec h cs (MedicineRequest.create t0 patientId n)) <> Status.open
  \/ now <= expiresAt (exec h cs (MedicineRequest.create t0 patientId n)) ->
  MedicineRequest.save now (exec h cs (MedicineRequest.create t0 patientId n))
  = exec h cs (MedicineRequest.create t0 patientId n).
Proof.
  pose proof (reachable_prices h t0 patientId n cs) as Hp.
  set (d := exec h cs (MedicineRequest.create t0 patientId n)) in *.
  intros Hc. unfold MedicineRequest.save, MedicineRequest.pre_save.
  assert (Hm : map MedicineRequest.recompute (responses d) = responses d).
  { induction (responses d) as [|r rs IH]; [reflexivity|].
    inversion Hp as [|r' rs' Hr Hrs]; subst. simpl.
    rewrite (recompute_fixed _ Hr), IH; auto. }
  assert (Hb : Status.eqb (status d) Status.open && (expiresAt d <? now)
               = false).
  { destruct Hc as [Hs|Ht].
    - now rewrite (Status_eqb_neq _ _ Hs).
    - apply andb_false_iff. right. apply Z.ltb_ge. exact Ht. }
  rewrite Hb, Hm. destruct d; reflexivity.
Qed.

Lemma save_is_identity_witness :
  MedicineRequest.save 2500 two_offers = two_offers.
Proof.
  assert (E : two_offers
              = exec true
                  [(1000, RespondToRequest pharmacyA (offer 1200%float));
                   (2000, RespondToRequest pharmacyB (offer 900%float))]
                  (MedicineRequest.create 0 1%N None))
    by (vm_compute; reflexivity).
  rewrite E.
  apply (save_is_identity true 0 1%N None
           [(1000, RespondToRequest pharmacyA (offer 1200%float));
            (2000, RespondToRequest pharmacyB (offer 900%float))] 2500).
  right. rewrite <- E. vm_compute. discriminate.
Defined.


Lemma find_response_last p rs r :
  ~ In p (map pharmacy rs) -> pharmacy r = p ->
  find (fun x => (pharmacy x =? p)%N) (rs ++ [r]) = Some r.
Proof.
  intros Hn Hp. induction rs as [|x rs IH]; simpl.
  - rewrite Hp, N.eqb_refl. reflexivity.
  - simpl in Hn. destruct (N.eqb_spec (pharmacy x) p) as [E|E].
    + exfalso. apply Hn. now left.
    + apply IH. intros K. apply Hn. now right.
Qed.







(** ** The estimated ready time *)

Lemma leading_digits_split s :
  exists post,
    s = (MedicineRequestController.leading_digits s ++ post)%string /\
    all_digits (MedicineRequestController.leading_digits s) = true /\
    starts_with_digit post = false.
Proof.
  induction s as [|c s IH]; simpl.
  - exists ""%string. repeat split.
  - destruct (MedicineRequestController.is_digit c) eqn:E.
    + destruct IH as (post & H1 & H2 & H3). exists post.
      simpl. rewrite E, H2. repeat split; [|assumption].
      now rewrite <- H1.
    + exists (String c s). simpl. rewrite E. repeat split.
Qed.

(** X11: [match(/\d+/)] as the controller uses it returns the first
    maximal run of digits: the text before it has no digit, the run is not
    empty and made of digits only, and what follows does not start with a
    digit; it returns nothing exactly when the text has no digit. *)
Theorem match_digits_spec s :
  match MedicineRequestController.match_digits s with
  | Some m =>
      exists pre post,
        s = (pre ++ m ++ post)%string /\
        no_digit pre = true /\
        m <> ""%string /\
        all_digits m = true /\
        starts_with_digit post = false
  | None => no_digit s = true
  end.
Proof.
  induction s as [|c s IH]; simpl; [reflexivity|].
  destruct (MedicineRequestController.is_digit c) eqn:E.
  - destruct (leading_digits_split s) as (post & H1 & H2 & H3).
    exists ""%string, post. simpl. rewrite E, H2.
    repeat split; try assumption; [|discriminate].
    now rewrite <- H1.
  - destruct (MedicineRequestController.match_digits s) as [m|].
    + destruct IH as (pre & post & H1 & H2 & H3 & H4 & H5).
      exists (String c pre), post. simpl. rewrite E, H2.
      repeat split; try assumption. now rewrite <- H1.
    + simpl. exact IH.
Qed.



(** [parseInt] reads a run of digits as a decimal number: one more digit at
    the end multiplies by ten and adds the digit. *)
Lemma parseInt_from_snoc s c acc :
  MedicineRequestController.parseInt_from acc (s ++ String c "")%string
  = 10 * MedicineRequestController.parseInt_from acc s
    + (Z.of_N (N_of_ascii c) - 48).
Proof.
  revert acc. induction s as [|a s IH]; intros acc; [reflexivity|].
  cbn [append MedicineRequestController.parseInt_from]. apply IH.
Qed.



(** ** The validation of the inputs *)

(** A number passes the tests [!x] and [x <= 0] exactly when it is
    positive. *)
Lemma positive_number q :
  negb (truthy_number q) || (q <=? 0)%float = false <-> (0 <? q)%float = true.
Proof.
  unfold truthy_number, is_zero, is_nan.
  rewrite !FloatAxioms.eqb_spec, FloatAxioms.leb_spec, FloatAxioms.ltb_spec.
  change (Prim2SF zero) with (S754_zero false).
  change (Prim2SF 0) with (S754_zero false).
  unfold SFeqb, SFleb, SFltb.
  destruct (Prim2SF q) as [s|s| |s m e]; simpl.
  - split; discriminate.
  - destruct s; simpl; split; congruence.
  - split; discriminate.
  - destruct s; simpl; rewrite Z.compare_refl, Pos.compare_cont_refl; simpl;
      split; congruence.
Qed.

Lemma truthy_number_spec x :
  truthy_number x = true <-> is_zero x = false /\ is_nan x = false.
Proof.
  unfold truthy_number.
  destruct (is_zero x), (is_nan x); simpl; split; try tauto; try discriminate;
    intros [? ?]; discriminate.
Qed.

Lemma bad_medicine_spec m : bad_medicine m = false <-> valid_medicine m.
Proof.
  unfold bad_medicine, valid_medicine.
  destruct (name m) as [[|c nm]|]; simpl.
  - split; [discriminate|]. intros (nm & q & H & Hne & _).
    injection H as <-. contradiction.
  - destruct (quantity m) as [q|]; simpl.
    + rewrite positive_number. split.
      * intros H. exists (String c nm), q. repeat split; auto. discriminate.
      * intros (nm' & q' & _ & _ & Hq & H). injection Hq as <-. exact H.
    + split; [discriminate|]. intros (nm' & q' & _ & _ & Hq & _).
      discriminate.
  - split; [discriminate|]. intros (nm & q & H & _). discriminate.
Qed.

Lemma usable_coordinate_spec c :
  truthy_opt_number c = true <-> usable_coordinate c.
Proof.
  unfold usable_coordinate. destruct c as [x|]; simpl.
  - rewrite truthy_number_spec. split.
    + intros [H1 H2]. now exists x.
    + intros (y & Hy & H1 & H2). injection Hy as <-. now split.
  - split; [discriminate|]. intros (y & Hy & _). discriminate.
Qed.

(** X13: [validateMedicineRequest] lets a request body through exactly when
    the medicine list is a non-empty array whose entries all have a
    non-empty name and a quantity greater than zero, and the location has a
    latitude and a longitude that are both neither zero nor [NaN]. *)
Theorem validateMedicineRequest_next_iff body :
  validateMedicineRequest body = next <->
  exists ms loc,
    medicines body = Some ms /\ ms <> [] /\
    Forall valid_medicine ms /\
    location body = Some loc /\
    usable_coordinate (latitude loc) /\
    usable_coordinate (longitude loc).
Proof.
  unfold validateMedicineRequest.
  destruct (medicines body) as [[|m ms]|].
  - split; [discriminate|]. intros (ms & loc & H & Hne & _).
    injection H as <-. contradiction.
  - destruct (existsb bad_medicine (m :: ms)) eqn:Eb.
    + split; [discriminate|].
      intros (ms' & loc & H & _ & Hall & _). injection H as <-.
      apply existsb_exists in Eb. destruct Eb as (x & Hx & Hb).
      rewrite Forall_forall in Hall. apply Hall, bad_medicine_spec in Hx.
      congruence.
    + assert (Hall : Forall valid_medicine (m :: ms)).
      { apply Forall_forall. intros x Hx. apply bad_medicine_spec.
        destruct (bad_medicine x) eqn:E; [|reflexivity].
        assert (existsb bad_medicine (m :: ms) = true)
          by (apply existsb_exists; now exists x).
        congruence. }
      destruct (location body) as [loc|].
      * destruct (truthy_opt_number (latitude loc)) eqn:Ela;
          destruct (truthy_opt_number (longitude loc)) eqn:Elo; simpl.
        -- split; [|reflexivity]. intros _. exists (m :: ms), loc.
           repeat split; auto; try discriminate;
             now apply usable_coordinate_spec.
        -- split; [discriminate|].
           intros (ms' & loc' & _ & _ & _ & Hl & _ & H).
           injection Hl as <-. apply usable_coordinate_spec in H. congruence.
        -- split; [discriminate|].
           intros (ms' & loc' & _ & _ & _ & Hl & H & _).
           injection Hl as <-. apply usable_coordinate_spec in H. congruence.
        -- split; [discriminate|].
           intros (ms' & loc' & _ & _ & _ & Hl & H & _).
           injection Hl as <-. apply usable_coordinate_spec in H. congruence.
      * split; [discriminate|].
        intros (ms' & loc' & _ & _ & _ & Hl & _). discriminate.
  - split; [discriminate|]. intros (ms & loc & H & _). discriminate.
Qed.

Lemma validateMedicineRequest_next_iff_witness :
  validateMedicineRequest
    (mkCreateBody
       (Some [mkMedicineInput (Some "Paracetamol") (Some 2%float)])
       (Some (mkLocationInput (Some 30.75%float) (Some 76.5%float))))
  = next.
Proof.
  apply (validateMedicineRequest_next_iff
           (mkCreateBody
              (Some [mkMedicineInput (Some "Paracetamol") (Some 2%float)])
              (Some (mkLocationInput (Some 30.75%float)
                                     (Some 76.5%float))))).
  exists [mkMedicineInput (Some "Paracetamol") (Some 2%float)],
         (mkLocationInput (Some 30.75%float) (Some 76.5%float)).
  split; [reflexivity|]. split; [discriminate|]. split.
  - constructor; [|constructor].
    exists "Paracetamol"%string, 2%float.
    repeat split; try reflexivity. discriminate.
  - split; [reflexivity|].
    split; eexists; (split; [reflexivity|split; reflexivity]).
Defined.

Lemma offer_tests_spec m :
  unnamed_offer m = false /\ unpriced_offer m = false <-> valid_raw_offer m.
Proof.
  unfold unnamed_offer, unpriced_offer, valid_raw_offer.
  destruct (om_medicineName m) as [[|c nm]|]; simpl.
  - split; [intros [H _]; discriminate|].
    intros ((nm & H & Hne) & _). injection H as <-. contradiction.
  - destruct (om_available m) as [[|]|]; simpl.
    + destruct (om_price m) as [p|]; simpl.
      * rewrite positive_number. split.
        -- intros [_ H]. split; [eexists; split; [reflexivity|discriminate]|].
           exists true. split; [reflexivity|]. intros _. now exists p.
        -- intros (_ & b & Hb & H). injection Hb as <-.
           destruct (H eq_refl) as (p' & Hp & Hpos). injection Hp as <-.
           now split.
      * split; [intros [_ H]; discriminate|].
        intros (_ & b & Hb & H). injection Hb as <-.
        destruct (H eq_refl) as (p' & Hp & _). discriminate.
    + split; [|intros _; now split]. intros _.
      split; [eexists; split; [reflexivity|discriminate]|].
      exists false. split; [reflexivity|discriminate].
    + split; [intros [H _]; discriminate|].
      intros (_ & b & Hb & _). discriminate.
  - split; [intros [H _]; discriminate|].
    intros ((nm & H & _) & _). discriminate.
Qed.

Lemma check_offers_next_iff ms :
  check_offers ms = next <-> Forall valid_raw_offer ms.
Proof.
  induction ms as [|m ms IH]; simpl.
  - split; [constructor|reflexivity].
  - pose proof (offer_tests_spec m) as Hm.
    destruct (unnamed_offer m); [|destruct (unpriced_offer m)].
    + split; [discriminate|]. intros H. inversion H; subst.
      destruct Hm as [_ Hm]. destruct (Hm H2). discriminate.
    + split; [discriminate|]. intros H. inversion H; subst.
      destruct Hm as [_ Hm]. destruct (Hm H2). discriminate.
    + rewrite IH. split.
      * intros H. constructor; [|assumption]. apply Hm. now split.
      * intros H. now inversion H.
Qed.

(** X14: [validatePharmacyResponse] lets a response body through exactly
    when the medicine list is a non-empty array whose entries all have a
    non-empty name and an availability flag, the available ones with a
    price greater than zero. *)
Theorem validatePharmacyResponse_next_iff raw :
  validatePharmacyResponse raw = next <->
  exists ms, raw = Some ms /\ ms <> [] /\ Forall valid_raw_offer ms.
Proof.
  unfold validatePharmacyResponse. destruct raw as [[|m ms]|].
  - split; [discriminate|]. intros (ms & H & Hne & _).
    injection H as <-. contradiction.
  - rewrite check_offers_next_iff. split.
    + intros H. exists (m :: ms). repeat split; [discriminate|assumption].
    + intros (ms' & H & _ & Hall). now injection H as <-.
  - split; [discriminate|]. intros (ms & H & _). discriminate.
Qed.

Lemma validatePharmacyResponse_next_iff_witness :
  validatePharmacyResponse
    (Some [mkOfferedMedicine (Some "Paracetamol") (Some true)
                             (Some 1200%float);
           mkOfferedMedicine (Some "Ibuprofen") (Some false) None])
  = next.
Proof.
  apply (validatePharmacyResponse_next_iff
           (Some [mkOfferedMedicine (Some "Paracetamol") (Some true)
                                    (Some 1200%float);
                  mkOfferedMedicine (Some "Ibuprofen") (Some false) None])).
  eexists. split; [reflexivity|]. split; [discriminate|].
  constructor; [|constructor; [|constructor]].
  - split; [eexists; split; [reflexivity|discriminate]|].
    exists true. split; [reflexivity|]. intros _.
    exists 1200%float. split; reflexivity.
  - split; [eexists; split; [reflexivity|discriminate]|].
    exists false. split; [reflexivity|discriminate].
Defined.





(** ** The range of the distance *)

Section DistanceRange.

Local Open Scope R_scope.






End DistanceRange.


(** ** Who is notified *)



(** ** Creating a request *)

Lemma create_fields now p n :
  MedicineRequest.create now p n
  = mkRequest p Status.open [] None [] n (now + 86400000) 0.
Proof.
  unfold MedicineRequest.create, MedicineRequest.save,
    MedicineRequest.pre_save, MedicineRequest.ttl.
  change (24 * 60 * 60 * 1000) with 86400000.
  cbn [status expiresAt Status.eqb andb].
  assert (E : (now + 86400000 <? now) = false) by (apply Z.ltb_ge; lia).
  rewrite E. reflexivity.
Qed.

(** X19: [POST /] creates a request exactly when the body passes the
    validation, the caller is a patient or a user and the upload of the
    prescription has not failed.  The request created is then open, belongs
    to the caller, has no response and no accepted pharmacy and expires 24
    hours later; the nearby pharmacies are told, and all pharmacies too
    exactly when the request is urgent or an emergency. *)
Theorem post_request_creates h now u file body urgency n :
  (created (post_request h now u file body urgency n) <> None <->
   validateMedicineRequest body = next /\
   (role u = Role.patient \/ role u = Role.user) /\
   file <> upload_failed) /\
  (forall d,
     created (post_request h now u file body urgency n) = Some d ->
     d = mkRequest (_id u) Status.open [] None [] n (now + 86400000) 0 /\
     res_status (create_res (post_request h now u file body urgency n))
     = 201 /\
     exists loc,
       location body = Some loc /\
       broadcasts (post_request h now u file body urgency n)
       = if h then
           notifyNearbyPharmacies (latitude loc) (longitude loc)
             "new_medicine_request"
           :: (if match urgency with
                  | Some Urgency.urgent | Some Urgency.emergency => true
                  | _ => false
                  end
               then [notifyAllPharmacies "urgent_medicine_request"]
               else [])
         else []).
Proof.
  unfold post_request.
  destruct (validateMedicineRequest body) eqn:Ev.
  - apply validateMedicineRequest_next_iff in Ev.
    destruct Ev as (ms & loc & _ & _ & _ & Hloc & _).
    unfold createRequest. rewrite Hloc.
    destruct (role u) eqn:Hr; simpl;
      try (split; [split; [congruence|
                           intros (_ & [H|H] & _); discriminate H]
                  |discriminate]);
      (destruct file; simpl;
       [ | split; [split; [congruence|intros (_ & _ & H); congruence]
                  |discriminate] | ]);
      (split;
       [split; [intros _; repeat split; auto; discriminate|discriminate]|]);
      intros d Hd; injection Hd as <-;
      (split; [apply create_fields|]); (split; [reflexivity|]);
      exists loc; (split; [reflexivity|]);
      destruct h; try reflexivity;
      destruct urgency as [[| |]|]; reflexivity.
  - split; [|discriminate]. simpl.
    split; [congruence|]. intros (H & _). discriminate H.
Qed.

Lemma post_request_creates_witness :
  created (post_request true 0 alice no_file equator_body
             (Some Urgency.emergency) None) = None /\
  created (post_request true 0 alice no_file
             (mkCreateBody
                (Some [mkMedicineInput (Some "Paracetamol") (Some 2%float)])
                (Some (mkLocationInput (Some 30.75%float)
                                       (Some 76.5%float))))
             (Some Urgency.emergency) None) <> None.
Proof.
  split; [reflexivity|].
  apply (post_request_creates true 0 alice no_file
           (mkCreateBody
              (Some [mkMedicineInput (Some "Paracetamol") (Some 2%float)])
              (Some (mkLocationInput (Some 30.75%float)
                                     (Some 76.5%float))))
           (Some Urgency.emergency) None).
  split; [reflexivity|]. split; [left; reflexivity|discriminate].
Defined.

(** ** The listing of the urgent requests *)



(** ** An offer without any available medicine *)

Lemma sum_prices_none_available meds :
  forallb (fun m => negb (available m)) meds = true ->
  MedicineRequestController.sum_prices meds = 0%float.
Proof.
  unfold MedicineRequestController.sum_prices.
  generalize 0%float as acc.
  induction meds as [|m meds IH]; simpl; intros acc H; [reflexivity|].
  apply andb_true_iff in H. destruct H as [Hm H].
  apply negb_true_iff in Hm. rewrite Hm.
  destruct (price m); simpl; now apply IH.
Qed.

(** X21: a response in which no medicine is available passes the
    validation as soon as every entry has a name, and is stored like any
    other: the pharmacy becomes a responder of the open request, with a
    total, a discount and a final price of zero. *)
Theorem empty_handed_response h now u body d :
  body_availableMedicines body <> [] ->
  Forall (fun m => medicineName m <> ""%string /\ available m = false)
         (body_availableMedicines body) ->
  role u = Role.pharmacy ->
  status d = Status.open ->
  ~ In (_id u) (responders d) ->
  validatePharmacyResponse
    (Some (map as_offered (body_availableMedicines body))) = next /\
  exists d' r,
    saved (MedicineRequestController.respondToRequest h now u body (Some d))
    = Some d' /\
    MedicineRequest.find_response (_id u) d' = Some r /\
    totalPrice r = 0%float /\ discount r = 0%float /\
    finalPrice r = 0%float /\ isActive r = true.
Proof.
  intros Hne Hall Hrole Hs Hnew. split.
  - apply validatePharmacyResponse_next_iff. eexists.
    split; [reflexivity|]. split.
    + destruct (body_availableMedicines body); [contradiction|discriminate].
    + apply Forall_map. eapply Forall_impl; [|exact Hall].
      intros m [Hn Ha]. split.
      * exists (medicineName m). now split.
      * exists false. simpl. split; [now rewrite Ha|discriminate].
  - assert (Hsum : MedicineRequestController.sum_prices
                     (body_availableMedicines body) = 0%float).
    { apply sum_prices_none_available. apply forallb_forall.
      intros m Hm. rewrite Forall_forall in Hall.
      destruct (Hall m Hm) as [_ Ha]. now rewrite Ha. }
    unfold MedicineRequestController.respondToRequest.
    rewrite Hrole, Hs. simpl.
    unfold MedicineRequest.addResponse.
    pose proof Hnew as Hnone. apply find_response_none in Hnone.
    rewrite Hnone. cbv zeta. cbn [saved].
    eexists. exists (MedicineRequest.recompute (pushed_response now u body)).
    split; [reflexivity|].
    split.
    + unfold MedicineRequest.find_response, MedicineRequest.save.
      rewrite pre_save_responses. simpl responses. rewrite map_app.
      simpl map.
      apply find_response_last.
      * now rewrite map_pharmacy_recompute.
      * now rewrite recompute_pharmacy.
    + unfold MedicineRequest.recompute, pushed_response. cbv zeta.
      rewrite Hsum. repeat split.
Qed.

Lemma empty_handed_response_witness :
  exists d' r,
    saved (MedicineRequestController.respondToRequest true 1000 pharmacyA
             (mkRespondBody [mkAvailableMedicine "Paracetamol" false None]
                            None None None None)
             (Some fresh)) = Some d' /\
    MedicineRequest.find_response 10%N d' = Some r /\
    totalPrice r = 0%float.
Proof.
  destruct (empty_handed_response true 1000 pharmacyA
              (mkRespondBody [mkAvailableMedicine "Paracetamol" false None]
                             None None None None) fresh)
    as (_ & d' & r & H1 & H2 & H3 & _).
  - discriminate.
  - constructor; [|constructor]. split; [discriminate|reflexivity].
  - reflexivity.
  - reflexivity.
  - vm_compute. intros [].
  - exists d', r. repeat split; assumption.
Defined.

(** ** Who writes in the conversation *)

(** X22: in every state reached from a created request, each message of
    the communication log was written by the patient or by a pharmacy that
    has a response on the request. *)
Theorem conversation_participants h t0 patientId n cs c :
  In c (communication (exec h cs (MedicineRequest.create t0 patientId n))) ->
  sender c = patientId \/
  In (sender c)
     (responders (exec h cs (MedicineRequest.create t0 patientId n))).
Proof.
  revert c.
  assert (Hinv :
    (fun d =>
       patient d = patientId /\
       (forall a, acceptedPharmacy d = Some a ->
                  In (accepted_pharmacy a) (responders d)) /\
       forall c, In c (communication d) ->
                 sender c = patientId \/ In (sender c) (responders d))
      (exec h cs (MedicineRequest.create t0 patientId n))).
  { apply exec_invariant.
    - intros d now op (Hp & Ha & Hc).
      destruct (step_shape h d now op)
        as [E|[(u & body & _ & _ & _ & _ & E)|[(u & p & i & _ & _ & _ & Hin & E)|
           [(u & s & n0 & _ & _ & E)|(u & msg & ty & _ & Ho & E)]]]];
        rewrite E; clear E; unfold MedicineRequest.save, responders;
        rewrite ?pre_save_patient, ?pre_save_acceptedPharmacy,
          ?pre_save_communication, ?pre_save_responses,
          ?map_pharmacy_recompute.
      + repeat split; assumption.
      + simpl. rewrite map_app. split; [assumption|]. split.
        * intros a H. apply in_or_app. left. now apply Ha.
        * intros c H. destruct (Hc c H) as [K|K]; [now left|].
          right. apply in_or_app. now left.
      + simpl. rewrite map_pharmacy_deactivate.
        split; [assumption|]. split.
        * intros a H. injection H as <-. exact Hin.
        * exact Hc.
      + destruct (truthy_opt_string n0); simpl;
          (split; [assumption|split; assumption]).
      + simpl. split; [assumption|]. split; [assumption|].
        intros c H. apply in_app_iff in H. destruct H as [H|[<-|[]]].
        * now apply Hc.
        * simpl. unfold party in Ho.
          apply orb_true_iff in Ho. destruct Ho as [Ho|Ho].
          -- left. unfold MedicineRequestController.isPatient in Ho.
             apply N.eqb_eq in Ho. congruence.
          -- right.
             unfold MedicineRequestController.isAcceptedPharmacy in Ho.
             destruct (acceptedPharmacy d) as [a|] eqn:Ea; [|discriminate].
             apply N.eqb_eq in Ho. rewrite <- Ho. now apply Ha.
    - unfold responders. rewrite create_acceptedPharmacy, create_responses.
      unfold MedicineRequest.create, MedicineRequest.save.
      rewrite pre_save_patient, pre_save_communication. simpl.
      split; [reflexivity|]. split; [discriminate|]. intros c []. }
  intros c. apply Hinv.
Qed.

Lemma conversation_participants_witness :
  map sender (communication conversation) = [1%N; 10%N] /\
  forall c, In c (communication conversation) ->
            sender c = 1%N \/ In (sender c) (responders conversation).
Proof.
  split; [vm_compute; reflexivity|].
  assert (E : conversation
              = exec true
                  [(1000, RespondToRequest pharmacyA (offer 1200%float));
                   (2000, RespondToRequest pharmacyB (offer 900%float));
                   (3000, AcceptPharmacy alice 10%N None);
                   (4000, AddCommunication alice "When can I come?" "text");
                   (4500, AddCommunication pharmacyA "In ten minutes" "text")]
                  (MedicineRequest.create 0 1%N None))
    by (vm_compute; reflexivity).
  rewrite E. intros c Hc.
  apply (conversation_participants true 0 1%N None _ c Hc).
Defined.

(** ** The prescription *)

Lemma hasResponded_spec u d :
  hasResponded u d = true <-> In (_id u) (responders d).
Proof.
  unfold hasResponded, responders. rewrite existsb_exists. split.
  - intros (r & Hr & E). apply N.eqb_eq in E. rewrite <- E.
    now apply in_map.
  - intros H. apply in_map_iff in H. destruct H as (r & E & Hr).
    exists r. split; [assumption|]. now apply N.eqb_eq.
Qed.

Lemma reachable_accepted_responder h t0 patientId n cs a :
  acceptedPharmacy (exec h cs (MedicineRequest.create t0 patientId n))
  = Some a ->
  In (accepted_pharmacy a)
     (responders (exec h cs (MedicineRequest.create t0 patientId n))).
Proof.
  revert a.
  apply exec_invariant with
    (P := fun d => forall a, acceptedPharmacy d = Some a ->
                             In (accepted_pharmacy a) (responders d)).
  - intros d now op Hd a.
    destruct (step_cases h d now op) as [E|[(r & _ & _ & _ & _ & E & Ea & _)|
      [(p & a1 & _ & Hin & E & Ea & Hp & _)|(s & _ & E & Ea & _)]]].
    + rewrite E. apply Hd.
    + unfold responders. rewrite Ea, E, map_pharmacy_recompute, map_app.
      intros H. apply in_or_app. left. now apply Hd.
    + unfold responders.
      rewrite Ea, E, map_pharmacy_recompute, map_pharmacy_deactivate.
      intros H. injection H as <-. now rewrite Hp.
    + unfold responders. rewrite Ea, E, map_pharmacy_recompute. apply Hd.
  - intros a0. now rewrite create_acceptedPharmacy.
Qed.

(** X23: for a request that has a prescription image, in a state reached
    from a created request, [getPrescriptionImage] answers 200 exactly to
    the patient and to the pharmacies that have a response on the request,
    and 403 to everybody else: the accepted pharmacy is always one of the
    responders. *)
Theorem prescription_readers h t0 patientId n cs u :
  (res_status
     (getPrescriptionImage u true
        (Some (exec h cs (MedicineRequest.create t0 patientId n)))) = 200
   <-> _id u = patientId \/
       In (_id u)
          (responders (exec h cs (MedicineRequest.create t0 patientId n))))
  /\
  (res_status
     (getPrescriptionImage u true
        (Some (exec h cs (MedicineRequest.create t0 patientId n)))) = 200
   \/
   res_status
     (getPrescriptionImage u true
        (Some (exec h cs (MedicineRequest.create t0 patientId n)))) = 403).
Proof.
  set (d := exec h cs (MedicineRequest.create t0 patientId n)).
  assert (Hpat : patient d = patientId).
  { unfold d. rewrite exec_keeps_patient.
    unfold MedicineRequest.create, MedicineRequest.save.
    now rewrite pre_save_patient. }
  assert (Hacc : MedicineRequestController.isAcceptedPharmacy u d = true ->
                 In (_id u) (responders d)).
  { unfold MedicineRequestController.isAcceptedPharmacy.
    destruct (acceptedPharmacy d) as [a|] eqn:Ea; [|discriminate].
    intros E. apply N.eqb_eq in E. rewrite <- E.
    apply (reachable_accepted_responder h t0 patientId n cs a Ea). }
  unfold getPrescriptionImage. simpl negb. cbv iota.
  unfold MedicineRequestController.isPatient. rewrite Hpat.
  pose proof (hasResponded_spec u d) as Hr.
  destruct (N.eqb_spec patientId (_id u)) as [Ep|Ep]; simpl.
  - split; [|now left]. split; [intros _; left; congruence|reflexivity].
  - destruct (hasResponded u d) eqn:E1; simpl.
    + split; [|now left]. split; [intros _; right; now apply Hr|reflexivity].
    + destruct (MedicineRequestController.isAcceptedPharmacy u d) eqn:E2;
        simpl.
      * specialize (Hacc eq_refl). apply Hr in Hacc. discriminate.
      * split; [|now right]. split; [discriminate|].
        intros [K|K]; [congruence|]. apply Hr in K. discriminate.
Qed.

Lemma prescription_readers_witness :
  res_status (getPrescriptionImage pharmacyB true (Some accepted_A)) = 200.
Proof.
  assert (E : accepted_A
              = exec true
                  [(1000, RespondToRequest pharmacyA (offer 1200%float));
                   (2000, RespondToRequest pharmacyB (offer 900%float));
                   (3000, AcceptPharmacy alice 10%N None)]
                  (MedicineRequest.create 0 1%N None))
    by (vm_compute; reflexivity).
  rewrite E.
  apply (prescription_readers true 0 1%N None
           [(1000, RespondToRequest pharmacyA (offer 1200%float));
            (2000, RespondToRequest pharmacyB (offer 900%float));
            (3000, AcceptPharmacy alice 10%N None)] pharmacyB).
  right. rewrite <- E. vm_compute. right. left. reflexivity.
Defined.

Lemma forward_acceptance_invariant h t0 patientId n cs :
  never_reopens cs ->
  acceptance_invariant (exec h cs (MedicineRequest.create t0 patientId n)).
Proof.
  intros Hcs.
  apply exec_invariant_on with (ok := fun c => negb (reopens c)).
  - intros d c. apply step_acceptance_invariant.
  - exact Hcs.
  - unfold acceptance_invariant.
    rewrite create_acceptedPharmacy, create_responses. intros r [].
Qed.

Lemma filter_isActive_recompute rs :
  map pharmacy (filter isActive (map MedicineRequest.recompute rs))
  = map pharmacy (filter isActive rs).
Proof.
  induction rs as [|r rs IH]; [reflexivity|].
  simpl. rewrite recompute_isActive.
  destruct (isActive r); simpl; [rewrite recompute_pharmacy|]; now rewrite IH.
Qed.

Lemma filter_all (A : Type) (f : A -> bool) (l : list A) :
  (forall x, In x l -> f x = true) -> filter f l = l.
Proof.
  induction l as [|a l IH]; simpl; intros H; [reflexivity|].
  rewrite (H a (or_introl eq_refl)). f_equal. apply IH.
  intros x Hx. apply H. now right.
Qed.

(** X24: when the patient replaces the prescription of a request (in a
    state reached without a status update back to open), the pharmacies
    told about it are: every responder, once each and in order, as long as
    no pharmacy is accepted; and once a pharmacy is accepted, that pharmacy
    alone, which gets the event twice, as the only active responder and as
    the accepted pharmacy. *)
Theorem prescription_update_events t0 n cs now u :
  never_reopens cs ->
  map target
    (emitted (updatePrescription true now u uploaded
                (Some (exec true cs (MedicineRequest.create t0 (_id u) n)))))
  = match acceptedPharmacy (exec true cs (MedicineRequest.create t0 (_id u) n))
    with
    | None => responders (exec true cs (MedicineRequest.create t0 (_id u) n))
    | Some a => [accepted_pharmacy a; accepted_pharmacy a]
    end.
Proof.
  intros Hcs.
  pose proof (forward_acceptance_invariant true t0 (_id u) n cs Hcs) as Hinv.
  pose proof (reachable_responders_NoDup true t0 (_id u) n cs) as Hnd.
  set (d := exec true cs (MedicineRequest.create t0 (_id u) n)) in *.
  assert (Hpat : patient d = _id u).
  { unfold d. rewrite exec_keeps_patient.
    unfold MedicineRequest.create, MedicineRequest.save.
    now rewrite pre_save_patient. }
  unfold updatePrescription. rewrite Hpat, N.eqb_refl. simpl negb.
  cbv iota zeta. cbn [emitted].
  unfold MedicineRequest.save.
  rewrite pre_save_responses, pre_save_acceptedPharmacy.
  rewrite map_app, map_map. simpl target.
  change (map (fun x : Response => pharmacy x)
              (filter isActive (map MedicineRequest.recompute (responses d))))
    with (map pharmacy
              (filter isActive (map MedicineRequest.recompute (responses d)))).
  rewrite filter_isActive_recompute.
  unfold acceptance_invariant in Hinv.
  destruct (acceptedPharmacy d) as [a|].
  - destruct Hinv as (_ & (r & Hr & Hp & Ha) & Hall).
    rewrite (only_active (responses d) r Hnd Hr Ha).
    + simpl. now rewrite Hp.
    + intros r' Hr' Ha'. rewrite Hp. now apply Hall.
  - rewrite (filter_all _ isActive (responses d) Hinv). simpl.
    now rewrite app_nil_r.
Qed.

Lemma prescription_update_events_witness :
  map target
    (emitted (updatePrescription true 3500 alice uploaded (Some accepted_A)))
  = [10%N; 10%N].
Proof.
  assert (E : accepted_A
              = exec true
                  [(1000, RespondToRequest pharmacyA (offer 1200%float));
                   (2000, RespondToRequest pharmacyB (offer 900%float));
                   (3000, AcceptPharmacy alice 10%N None)]
                  (MedicineRequest.create 0 (_id alice) None))
    by (vm_compute; reflexivity).
  rewrite E.
  rewrite (prescription_update_events 0 None
             [(1000, RespondToRequest pharmacyA (offer 1200%float));
              (2000, RespondToRequest pharmacyB (offer 900%float));
              (3000, AcceptPharmacy alice 10%N None)] 3500 alice eq_refl).
  rewrite <- E. vm_compute. reflexivity.
Defined.
